(** * PyRoboLearn: priority tasks, RL metrics and decorators

    A shallow embedding of

    - [pyrobolearn/priorities/tasks/velocity/angular_momentum.py]
    - [pyrobolearn/priorities/constraints/velocity/self_collision_avoidance.py]
    - [pyrobolearn/metrics/rl_metrics.py]
    - [pyrobolearn/utils/decorator.py]

    Python methods are functions in a state-and-exception monad over the
    attributes of [self]; an exception leaves every assignment made before
    it in place, as in Python. *)

From Stdlib Require Import ZArith QArith List String Ascii Bool Lia.
From stdpp Require Import base option list strings gmap.

Local Open Scope Z_scope.
Local Open Scope string_scope.
Local Open Scope list_scope.

(** ** Exceptions and the method monad *)

Inductive exn : Type :=
| TypeError
| ValueError
| AttributeError (attr : string)
| NameError (name : string).

Inductive result (A : Type) : Type :=
| Returned (a : A)
| Raised (e : exn).

Arguments Returned {A} a.
Arguments Raised {A} e.

(** A method body over a state [St]: the state after the call together with
    what the call did. *)
Definition Py (St A : Type) : Type := St -> St * result A.

Definition py_ret {St A} (a : A) : Py St A := fun s => (s, Returned a).

Definition py_bind {St A B} (m : Py St A) (k : A -> Py St B) : Py St B :=
  fun s =>
    match m s with
    | (s', Returned a) => k a s'
    | (s', Raised e) => (s', Raised e)
    end.

Definition raise {St A} (e : exn) : Py St A := fun s => (s, Raised e).
Definition modify {St} (f : St -> St) : Py St unit := fun s => (f s, Returned tt).

#[global] Instance Py_ret {St} : MRet (Py St) := fun A => @py_ret St A.
#[global] Instance Py_bind {St} : MBind (Py St) := fun A B k m => @py_bind St A B m k.

(** ** Numbers and arrays *)

(** A Python float by its value: a finite double is a rational; comparisons
    on doubles are exact, and every comparison with [nan] is false. *)
Inductive pyfloat : Type :=
| Finite (q : Q)
| PosInf
| NegInf
| NaN.

Definition float_lt (a b : pyfloat) : bool :=
  match a, b with
  | NaN, _ | _, NaN => false
  | _, NegInf => false
  | NegInf, _ => true
  | PosInf, _ => false
  | Finite _, PosInf => true
  | Finite x, Finite y => negb (Qle_bool y x)
  end.

Definition float_gt (a b : pyfloat) : bool := float_lt b a.

(** The double nearest to [-0.2]. *)
Definition minus_point_two : pyfloat :=
  Finite (-3602879701896397 # 18014398509481984).

Definition vector : Type := list pyfloat.
Definition matrix : Type := list (list pyfloat).

(** [numpy.ndarray], up to two dimensions; [NdObj] is the 0-d array numpy
    builds around a value that is not a number. *)
Inductive ndarray : Type :=
| NdObj
| Nd0 (x : pyfloat)
| Nd1 (xs : vector)
| Nd2 (rows : matrix).

(** The Python values a caller can hand to a reference setter. *)
Inductive pyobj : Type :=
| PyNone
| PyFloat (x : pyfloat)
| PyStr (s : string)
| PyList (xs : vector)
| PyTuple (xs : vector)
| PyNdarray (a : ndarray).

(** [np.zeros(n)] *)
Definition np_zeros (n : nat) : ndarray := Nd1 (replicate n (Finite 0)).

(** [isinstance(o, (np.ndarray, list, tuple))] *)
Definition is_array_like (o : pyobj) : bool :=
  match o with
  | PyList _ | PyTuple _ | PyNdarray _ => true
  | PyNone | PyFloat _ | PyStr _ => false
  end.

(** [np.asarray(o)]: an array is returned as it is, a sequence of numbers
    becomes a 1-d array with the same items, anything else a 0-d array. *)
Definition np_asarray (o : pyobj) : ndarray :=
  match o with
  | PyNdarray a => a
  | PyList xs | PyTuple xs => Nd1 xs
  | PyFloat x => Nd0 x
  | PyNone | PyStr _ => NdObj
  end.

(** [len(a)]: the size of the first axis; a 0-d array has none. *)
Definition np_len (a : ndarray) : option nat :=
  match a with
  | NdObj | Nd0 _ => None
  | Nd1 xs => Some (length xs)
  | Nd2 rows => Some (length rows)
  end.

(** [a[:n]] on the rows of a 2-d array. *)
Definition rows_upto (n : nat) (a : matrix) : matrix := take n a.

#[global] Instance result_ret : MRet result := fun A => @Returned A.
#[global] Instance result_bind : MBind result := fun A B k r =>
  match r with
  | Returned a => k a
  | Raised e => Raised e
  end.

(** ** The model interface

    The robot model the tasks and constraints query. It is a read-only
    projection of the robot's state at the current tick: a value of [M] is
    the state of the object [self.model] refers to when a method runs. *)
Class ModelInterface (M : Type) : Type := {
  get_centroidal_momentum_matrix : M -> matrix;
  get_link_pair_distances : M -> vector
}.

(** ** Constraints *)

Module Constraint.

(** Modelled from the spec: the base class [Constraint]
    ([pyrobolearn/priorities/constraints/constraint.py]) is not among the
    sources. Its attributes are the inequality matrices, unset until the
    first update; [update()] recomputes them from the model's current
    pairwise link-distance queries, returns nothing and changes only
    [(A_ineq, b_ineq)]. *)
Record t : Type := mk {
  A_ineq : option matrix;
  b_ineq : option vector
}.

Section WithModel.
Context {M : Type} `{ModelInterface M}.

(** How a constraint turns the link-pair distances into the rows of
    [A_ineq x <= b_ineq]; fixed by the kind of constraint. *)
Variable inequality_rows : vector -> matrix * vector.

(** Modelled from the spec: [Constraint.__init__(model)] keeps the model
    and starts with no matrices. *)
Definition __init__ (model : M) : result t :=
  Returned {| A_ineq := None; b_ineq := None |}.

(** Modelled from the spec: [Constraint.update()]. *)
Definition update (model : M) : Py t unit :=
  modify (fun _ =>
    let rows := inequality_rows (get_link_pair_distances model) in
    {| A_ineq := Some rows.1; b_ineq := Some rows.2 |}).
End WithModel.

End Constraint.

Module SelfCollisionAvoidanceConstraint.

(** The classes a method of this class can come from. *)
Inductive cls : Type := Self | Base.

(** What the class body in [self_collision_avoidance.py] defines, and what
    its base class brings. *)
Definition defines (c : cls) : list string :=
  match c with
  | Self => ["__init__"]
  | Base => ["__init__"; "update"]
  end.

(** Attribute lookup on an instance: the class first, then its base. *)
Definition resolve (name : string) : option cls :=
  List.find (fun c => bool_decide (name ∈ defines c)) [Self; Base].

Section WithModel.
Context {M : Type} `{ModelInterface M}.
Variable inequality_rows : vector -> matrix * vector.

(** [super(SelfCollisionAvoidanceConstraint, self).__init__(model)] *)
Definition __init__ (model : M) : result Constraint.t :=
  Constraint.__init__ model.

(** [constraint.update()]: the class has no [update] of its own. *)
Definition update (model : M) : Py Constraint.t unit :=
  match resolve "update" with
  | Some Base => Constraint.update inequality_rows model
  | Some Self | None => raise (AttributeError "update")
  end.
End WithModel.

End SelfCollisionAvoidanceConstraint.

(** ** Tasks *)

Inductive Weight : Type :=
| ScalarWeight (w : pyfloat)
| MatrixWeight (W : matrix).

Module Task.

(** Modelled from the spec: the base class [Task]
    ([pyrobolearn/priorities/tasks/task.py]) is not among the sources. It
    owns the weight and the ordered list of associated constraints. *)
Record t (C : Type) : Type := mk {
  weight : Weight;
  constraints : list C
}.
Arguments mk {C} weight constraints.
Arguments weight {C} _.
Arguments constraints {C} _.

(** Modelled from the spec: a negative scalar weight is rejected, not
    clamped; a matrix weight is taken as given. *)
Definition weight_ok (w : Weight) : bool :=
  match w with
  | ScalarWeight x => negb (float_lt x (Finite 0))
  | MatrixWeight _ => true
  end.

(** Modelled from the spec: [Task.__init__(model, weight, constraints)]. *)
Definition __init__ {M C : Type} (model : M) (w : Weight) (cs : list C)
  : result (t C) :=
  if weight_ok w then Returned (mk w cs) else Raised ValueError.

End Task.

(** Reading an instance attribute that may not have been assigned yet. *)
Definition attr {St A} (name : string) (field : St -> option A) : Py St A :=
  fun s =>
    match field s with
    | Some a => (s, Returned a)
    | None => (s, Raised (AttributeError name))
    end.

Module AngularMomentumTask.

(** The instance attributes: those of the base class, then [_des_k], [_A]
    and [_b], each unset until its first assignment. *)
Record t (C : Type) : Type := mk {
  base : Task.t C;
  _des_k : option ndarray;
  _A : option matrix;
  _b : option ndarray
}.
Arguments mk {C} base _des_k _A _b.
Arguments base {C} _.
Arguments _des_k {C} _.
Arguments _A {C} _.
Arguments _b {C} _.

(** [weight=1.] *)
Definition default_weight : Weight := ScalarWeight (Finite 1).

Section WithModel.
Context {M : Type} `{ModelInterface M}.
Context {C : Type}.

(** What updating one associated constraint does to it. *)
Variable update_constraint : M -> C -> C.

Definition set_des_k (k : ndarray) (self : t C) : t C :=
  {| base := base self; _des_k := Some k; _A := _A self; _b := _b self |}.
Definition set_A (a : matrix) (self : t C) : t C :=
  {| base := base self; _des_k := _des_k self; _A := Some a; _b := _b self |}.
Definition set_b (b : ndarray) (self : t C) : t C :=
  {| base := base self; _des_k := _des_k self; _A := _A self; _b := Some b |}.
Definition set_constraints (cs : list C) (self : t C) : t C :=
  {| base := Task.mk (Task.weight (base self)) cs;
     _des_k := _des_k self; _A := _A self; _b := _b self |}.

(** [desired_angular_momentum] (getter) *)
Definition desired_angular_momentum : Py (t C) ndarray :=
  attr "_des_k" _des_k.

(** [desired_angular_momentum] (setter) *)
Definition desired_angular_momentum_set (k_d : pyobj) : Py (t C) unit :=
  let k_d := match k_d with PyNone => PyNdarray (np_zeros 3) | _ => k_d end in
  if negb (is_array_like k_d) then raise TypeError
  else
    let k_d := np_asarray k_d in
    match np_len k_d with
    | None => raise TypeError
    | Some n =>
        if negb (n =? 3)%nat then raise ValueError
        else modify (set_des_k k_d)
    end.

(** [x_desired] (getter and setter) *)
Definition x_desired : Py (t C) ndarray := attr "_des_k" _des_k.
Definition x_desired_set (k_d : pyobj) : Py (t C) unit :=
  desired_angular_momentum_set k_d.

Definition set_desired_references (x_des : pyobj) : Py (t C) unit :=
  x_desired_set x_des.

Definition get_desired_references : Py (t C) ndarray := x_desired.

Definition _update (model : M) (x : pyobj) : Py (t C) unit :=
  modify (set_A (rows_upto 3 (get_centroidal_momentum_matrix model)));;
  k ← attr "_des_k" _des_k;
  modify (set_b k).

(** Modelled from the spec: [Task.update(x=None)] of the absent base
    class recomputes [(A, b)] through the task's own [_update] and
    recomputes the associated constraints; it returns nothing. *)
Definition update (model : M) (x : pyobj) : Py (t C) unit :=
  _update model x;;
  modify (fun self =>
    set_constraints
      (update_constraint model <$> Task.constraints (base self)) self).

Definition __init__ (model : M) (desired_angular_momentum : pyobj)
    (weight : Weight) (constraints : list C) : result (t C) :=
  b ← Task.__init__ model weight constraints;
  let self := {| base := b; _des_k := None; _A := None; _b := None |} in
  match (desired_angular_momentum_set desired_angular_momentum;;
         update model PyNone) self with
  | (self', Returned _) => Returned self'
  | (_, Raised e) => Raised e
  end.




End WithModel.

End AngularMomentumTask.


(** ** Reinforcement-learning metrics *)

(** What a metric does to the outside world, in order. *)
Inductive event : Type :=
| Run (num_steps : Z)
| Printed (value : pyfloat).

Module AverageReturnMetric.

(** The instance attributes. [_task] holds the state of the task the
    metric runs: [run] changes it in place. *)
Record t (RLTask : Type) : Type := mk {
  _gamma : option pyfloat;
  _task : option RLTask;
  returns : option (list pyfloat);
  _num_steps : option Z;
  _num_rollouts : option Z
}.
Arguments mk {RLTask} _gamma _task returns _num_steps _num_rollouts.
Arguments _gamma {RLTask} _.
Arguments _task {RLTask} _.
Arguments returns {RLTask} _.
Arguments _num_steps {RLTask} _.
Arguments _num_rollouts {RLTask} _.

Section WithTask.
Context {RLTask : Type}.

(** [task.run(num_steps=n)]: the return of one rollout and the task
    afterwards. *)
Variable run : Z -> RLTask -> pyfloat * RLTask.

(** [np.asarray(rewards).mean()] *)
Variable np_mean : list pyfloat -> pyfloat.

Definition set_gamma (g : pyfloat) (self : t RLTask) : t RLTask :=
  {| _gamma := Some g; _task := _task self; returns := returns self;
     _num_steps := _num_steps self; _num_rollouts := _num_rollouts self |}.
Definition set_task (k : RLTask) (self : t RLTask) : t RLTask :=
  {| _gamma := _gamma self; _task := Some k; returns := returns self;
     _num_steps := _num_steps self; _num_rollouts := _num_rollouts self |}.
Definition set_returns (l : list pyfloat) (self : t RLTask) : t RLTask :=
  {| _gamma := _gamma self; _task := _task self; returns := Some l;
     _num_steps := _num_steps self; _num_rollouts := _num_rollouts self |}.
Definition set_num_steps (n : Z) (self : t RLTask) : t RLTask :=
  {| _gamma := _gamma self; _task := _task self; returns := returns self;
     _num_steps := Some n; _num_rollouts := _num_rollouts self |}.
Definition set_num_rollouts (n : Z) (self : t RLTask) : t RLTask :=
  {| _gamma := _gamma self; _task := _task self; returns := returns self;
     _num_steps := _num_steps self; _num_rollouts := Some n |}.

(** [gamma] (setter) *)
Definition gamma_set (gamma : pyfloat) : Py (t RLTask) unit :=
  let gamma :=
    if float_gt gamma (Finite 1) then Finite 1
    else if float_lt gamma (Finite 0) then Finite 0
    else gamma in
  modify (set_gamma gamma).

(** [task] (setter): the argument is an [RLTask] or some other object. *)
Definition task_set (task : RLTask + pyobj) : Py (t RLTask) unit :=
  match task with
  | inl k => modify (set_task k)
  | inr _ => raise TypeError
  end.

Definition new : t RLTask :=
  {| _gamma := None; _task := None; returns := None;
     _num_steps := None; _num_rollouts := None |}.

Definition __init__ (task : RLTask + pyobj) (gamma : pyfloat)
    (num_rollouts num_steps : Z) : result (t RLTask) :=
  match (gamma_set gamma;;
         task_set task;;
         modify (set_returns []);;
         modify (set_num_steps num_steps);;
         modify (set_num_rollouts num_rollouts)) new with
  | (self, Returned _) => Returned self
  | (_, Raised e) => Raised e
  end.

(** The state a method runs in: the instance and what has been done to
    the outside so far. *)
Definition world : Type := t RLTask * list event.

Definition self_attr {A} (name : string) (field : t RLTask -> option A)
  : Py world A :=
  attr name (fun w : world => field w.1).

Definition emit (e : event) : Py world unit :=
  modify (fun w : world => (w.1, w.2 ++ [e])).

(** [self.task.run(num_steps=self._num_steps)] *)
Definition task_run : Py world pyfloat :=
  k ← self_attr "_task" _task;
  n ← self_attr "_num_steps" _num_steps;
  emit (Run n);;
  let out := run n k in
  modify (fun w : world => (set_task out.2 w.1, w.2));;
  mret out.1.

(** The body of [for _ in range(n)], with the local list [rewards]. *)
Fixpoint rollouts (n : nat) (rewards : list pyfloat)
  : Py world (list pyfloat) :=
  match n with
  | O => mret rewards
  | S n' =>
      reward ← task_run;
      rollouts n' (rewards ++ [reward])
  end.

Definition _end_episode_update : Py world unit :=
  n ← self_attr "_num_rollouts" _num_rollouts;
  rewards ← rollouts (Z.to_nat n) [];
  let rewards := np_mean rewards in
  emit (Printed rewards);;
  l ← self_attr "returns" returns;
  modify (fun w : world => (set_returns (l ++ [rewards]) w.1, w.2)).

(** The returns of [n] successive rollouts of [s] steps from task state
    [k], and the task after them. *)
Fixpoint rollout_returns (n : nat) (s : Z) (k : RLTask)
  : list pyfloat * RLTask :=
  match n with
  | O => ([], k)
  | S n' =>
      let out := run s k in
      let rest := rollout_returns n' s out.2 in
      (out.1 :: rest.1, rest.2)
  end.

Definition _get_data : Py (t RLTask) (list pyfloat) := attr "returns" returns.

(** [_end_episode_update()] called at the end of each of [n] episodes. *)
Fixpoint episodes (n : nat) : Py world unit :=
  match n with
  | O => mret tt
  | S n' => _end_episode_update;; episodes n'
  end.

(** The [num_steps] of the runs recorded in a trace, in order. *)
Definition runs (trace : list event) : list Z :=
  omap (fun e => match e with Run n => Some n | Printed _ => None end) trace.
End WithTask.

End AverageReturnMetric.

(** [str.lower()] on a byte string: the letters [A]-[Z] move to [a]-[z],
    every other byte stays. *)
Definition ascii_lower (c : ascii) : ascii :=
  let n := nat_of_ascii c in
  if ((65 <=? n) && (n <=? 90))%nat then ascii_of_nat (n + 32) else c.

Fixpoint lower (s : string) : string :=
  match s with
  | EmptyString => EmptyString
  | String c s' => String (ascii_lower c) (lower s')
  end.

(** [s[:n]] *)
Definition str_upto (n : nat) (s : string) : string := substring 0 n s.

Module LossMetric.

Record t (BatchLoss : Type) : Type := mk {
  _loss : option BatchLoss;
  batch_losses : list pyfloat;
  epoch_losses : list (list pyfloat);
  losses : list (list (list pyfloat));
  _wrt : option string
}.
Arguments mk {BatchLoss} _loss batch_losses epoch_losses losses _wrt.
Arguments _loss {BatchLoss} _.
Arguments batch_losses {BatchLoss} _.
Arguments epoch_losses {BatchLoss} _.
Arguments losses {BatchLoss} _.
Arguments _wrt {BatchLoss} _.

Section WithLoss.
Context {BatchLoss : Type}.

Definition set_loss (l : BatchLoss) (self : t BatchLoss) : t BatchLoss :=
  {| _loss := Some l; batch_losses := batch_losses self;
     epoch_losses := epoch_losses self; losses := losses self;
     _wrt := _wrt self |}.
Definition set_wrt (w : string) (self : t BatchLoss) : t BatchLoss :=
  {| _loss := _loss self; batch_losses := batch_losses self;
     epoch_losses := epoch_losses self; losses := losses self;
     _wrt := Some w |}.

(** [loss] (setter) *)
Definition loss_set (loss : BatchLoss + pyobj) : Py (t BatchLoss) unit :=
  match loss with
  | inl l => modify (set_loss l)
  | inr _ => raise TypeError
  end.

(** [wrt] (setter); the argument is a string or [None]. *)
Definition wrt_set (wrt : option string) : Py (t BatchLoss) unit :=
  let wrt :=
    match wrt with
    | None => "iteration"
    | Some wrt =>
        let wrt := lower wrt in
        if String.eqb (str_upto 7 wrt) "episode" then "episode"
        else if String.eqb (str_upto 5 wrt) "epoch" then "epoch"
        else "iteration"
    end in
  modify (set_wrt wrt).

(** [wrt] (getter) *)
Definition wrt : Py (t BatchLoss) string := attr "_wrt" _wrt.

Definition new : t BatchLoss :=
  {| _loss := None; batch_losses := []; epoch_losses := [];
     losses := []; _wrt := None |}.

Definition __init__ (loss : BatchLoss + pyobj) (wrt : option string)
  : result (t BatchLoss) :=
  match (loss_set loss;; wrt_set wrt) new with
  | (self, Returned _) => Returned self
  | (_, Raised e) => Raised e
  end.

(** [self.loss.value.item()]: the number the loss holds at the moment. *)
Variable item : BatchLoss -> pyfloat.

Definition set_batch_losses (l : list pyfloat) (self : t BatchLoss)
  : t BatchLoss :=
  {| _loss := _loss self; batch_losses := l;
     epoch_losses := epoch_losses self; losses := losses self;
     _wrt := _wrt self |}.
Definition set_epoch_losses (l : list (list pyfloat)) (self : t BatchLoss)
  : t BatchLoss :=
  {| _loss := _loss self; batch_losses := batch_losses self;
     epoch_losses := l; losses := losses self; _wrt := _wrt self |}.
Definition set_losses (l : list (list (list pyfloat))) (self : t BatchLoss)
  : t BatchLoss :=
  {| _loss := _loss self; batch_losses := batch_losses self;
     epoch_losses := epoch_losses self; losses := l; _wrt := _wrt self |}.

Definition _get_data : Py (t BatchLoss) (list (list (list pyfloat))) :=
  fun self => (self, Returned (losses self)).

Definition _end_batch_update : Py (t BatchLoss) unit :=
  l ← attr "_loss" _loss;
  modify (fun self => set_batch_losses (batch_losses self ++ [item l]) self).

Definition _end_epoch_update : Py (t BatchLoss) unit :=
  modify (fun self =>
            set_epoch_losses (epoch_losses self ++ [batch_losses self]) self);;
  modify (set_batch_losses []).

Definition _end_episode_update : Py (t BatchLoss) unit :=
  modify (fun self => set_losses (losses self ++ [epoch_losses self]) self);;
  modify (set_epoch_losses []).

(** What the training loop does that the metric sees: a batch ends with
    the loss object in some state, an epoch ends, an episode ends. *)
Inductive tick : Type :=
| Batch (loss : BatchLoss)
| Epoch
| Episode.

Definition on_tick (k : tick) : Py (t BatchLoss) unit :=
  match k with
  | Batch loss => modify (set_loss loss);; _end_batch_update
  | Epoch => _end_epoch_update
  | Episode => _end_episode_update
  end.

Definition after_ticks (ks : list tick) (self : t BatchLoss) : t BatchLoss :=
  fold_left (fun s k => (on_tick k s).1) ks self.

(** Every value the metric holds, oldest first: the finished episodes, the
    finished epochs of the running episode, the batches of the running
    epoch. *)
Definition recorded (self : t BatchLoss) : list pyfloat :=
  concat (concat (losses self)) ++ concat (epoch_losses self)
  ++ batch_losses self.

(** The values a series of ticks brings, oldest first. *)
Definition brought (ks : list tick) : list pyfloat :=
  omap (fun k => match k with Batch l => Some (item l) | _ => None end) ks.

(** A training run in which every epoch and every episode is closed: the
    ticks of one epoch, of one episode, of a whole run. *)
Definition epoch_ticks (batches : list BatchLoss) : list tick :=
  (Batch <$> batches) ++ [Epoch].
Definition episode_ticks (epochs : list (list BatchLoss)) : list tick :=
  concat (epoch_ticks <$> epochs) ++ [Episode].
Definition training_ticks (run : list (list (list BatchLoss))) : list tick :=
  concat (episode_ticks <$> run).
End WithLoss.

End LossMetric.

(** ** Decorators *)

Module decorator.

(** The names bound in the namespace of [decorator.py] once the module has
    run: what every module has, then its imports ([import sys],
    [import numpy], [import torch]), its assignments and its two
    functions. *)
Definition module_globals : gset string :=
  list_to_set [
    "__name__"; "__doc__"; "__file__"; "__package__"; "__builtins__";
    "sys"; "numpy"; "torch"; "__author__"; "__copyright__"; "__credits__";
    "__license__"; "__version__"; "__maintainer__"; "__email__";
    "__status__"; "convert_numpy"; "keyboard_interrupt"].

(** The names of the [builtins] module (Python 2 and 3 together). *)
Definition builtins : gset string :=
  list_to_set [
    "ArithmeticError"; "AssertionError"; "AttributeError";
    "BaseException"; "BaseExceptionGroup"; "BlockingIOError";
    "BrokenPipeError"; "BufferError"; "BytesWarning"; "ChildProcessError";
    "ConnectionAbortedError"; "ConnectionError"; "ConnectionRefusedError";
    "ConnectionResetError"; "DeprecationWarning"; "EOFError"; "Ellipsis";
    "EncodingWarning"; "EnvironmentError"; "Exception"; "ExceptionGroup";
    "False"; "FileExistsError"; "FileNotFoundError"; "FloatingPointError";
    "FutureWarning"; "GeneratorExit"; "IOError"; "ImportError";
    "ImportWarning"; "IndentationError"; "IndexError"; "InterruptedError";
    "IsADirectoryError"; "KeyError"; "KeyboardInterrupt"; "LookupError";
    "MemoryError"; "ModuleNotFoundError"; "NameError"; "None";
    "NotADirectoryError"; "NotImplemented"; "NotImplementedError";
    "OSError"; "OverflowError"; "PendingDeprecationWarning";
    "PermissionError"; "ProcessLookupError"; "RecursionError";
    "ReferenceError"; "ResourceWarning"; "RuntimeError"; "RuntimeWarning";
    "StandardError"; "StopAsyncIteration"; "StopIteration"; "SyntaxError";
    "SyntaxWarning"; "SystemError"; "SystemExit"; "TabError";
    "TimeoutError"; "True"; "TypeError"; "UnboundLocalError";
    "UnicodeDecodeError"; "UnicodeEncodeError"; "UnicodeError";
    "UnicodeTranslateError"; "UnicodeWarning"; "UserWarning";
    "ValueError"; "Warning"; "ZeroDivisionError"; "__build_class__";
    "__debug__"; "__doc__"; "__import__"; "__loader__"; "__name__";
    "__package__"; "__spec__"; "abs"; "aiter"; "all"; "anext"; "any";
    "apply"; "ascii"; "basestring"; "bin"; "bool"; "breakpoint"; "buffer";
    "bytearray"; "bytes"; "callable"; "chr"; "classmethod"; "cmp";
    "coerce"; "compile"; "complex"; "copyright"; "credits"; "delattr";
    "dict"; "dir"; "divmod"; "enumerate"; "eval"; "exec"; "execfile";
    "exit"; "file"; "filter"; "float"; "format"; "frozenset"; "getattr";
    "globals"; "hasattr"; "hash"; "help"; "hex"; "id"; "input"; "int";
    "intern"; "isinstance"; "issubclass"; "iter"; "len"; "license";
    "list"; "locals"; "long"; "map"; "max"; "memoryview"; "min"; "next";
    "object"; "oct"; "open"; "ord"; "pow"; "print"; "property"; "quit";
    "range"; "raw_input"; "reduce"; "reload"; "repr"; "reversed"; "round";
    "set"; "setattr"; "slice"; "sorted"; "staticmethod"; "str"; "sum";
    "super"; "tuple"; "type"; "unichr"; "unicode"; "vars"; "xrange"; "zip"].

Inductive scope : Type := Local | Enclosing | Global | Builtin.

(** Where a name read in a function body is found: its locals, the
    variables of the enclosing function, the module, the built-ins. *)
Definition resolve_name (locals enclosing : gset string) (name : string)
  : option scope :=
  if decide (name ∈ locals) then Some Local
  else if decide (name ∈ enclosing) then Some Enclosing
  else if decide (name ∈ module_globals) then Some Global
  else if decide (name ∈ builtins) then Some Builtin
  else None.

(** The arrays a decorated method is called on. *)
Inductive data : Type :=
| Array (a : ndarray)
| Tensor (a : ndarray).

(** What a call of the wrapper does besides reading names. *)
Inductive step : Type :=
| FromNumpy
| CallInner
| ToNumpy.

Section convert_numpy.
(** The state of [self], and the decorated method [f(self, x)]. *)
Context {S : Type}.
Variable f : data -> Py S data.

Definition world : Type := S * list step.

Definition wrapper_locals : gset string :=
  list_to_set ["self"; "x"; "to_numpy"].
Definition wrapper_enclosing : gset string := list_to_set ["f"].

Definition load_name (name : string) : Py world scope :=
  match resolve_name wrapper_locals wrapper_enclosing name with
  | Some sc => mret sc
  | None => raise (NameError name)
  end.

Definition did (e : step) : Py world unit :=
  modify (fun w : world => (w.1, w.2 ++ [e])).

(** [isinstance(x, np.ndarray)] once its names are loaded *)
Definition is_ndarray (x : data) : bool :=
  match x with Array _ => true | Tensor _ => false end.

(** [torch.from_numpy(x).float()] *)
Definition torch_from_numpy (x : data) : Py world data :=
  match x with
  | Array a => did FromNumpy;; mret (Tensor a)
  | Tensor _ => raise TypeError
  end.

(** [x.numpy()] *)
Definition numpy_of (x : data) : Py world data :=
  match x with
  | Tensor a => did ToNumpy;; mret (Array a)
  | Array _ => raise (AttributeError "numpy")
  end.

(** [f(self, x)] *)
Definition run_inner (x : data) : Py world data :=
  fun w : world =>
    let out := f x w.1 in
    ((out.1, w.2), out.2).

Definition call_inner (x : data) : Py world data :=
  did CallInner;; run_inner x.

(** The function [convert_numpy(f)] returns. *)
Definition wrapper (x : data) (to_numpy : bool) : Py world data :=
  load_name "isinstance";; load_name "x";; load_name "np";;
  x ← (if negb (is_ndarray x)
       then load_name "torch";; load_name "x";; torch_from_numpy x
       else mret x);
  load_name "f";; load_name "self";; load_name "x";;
  x ← call_inner x;
  load_name "to_numpy";;
  if to_numpy then load_name "x";; numpy_of x
  else load_name "x";; mret x.

Definition convert_numpy : data -> bool -> Py world data := wrapper.
End convert_numpy.

(** What can leave a call besides a value: the two exits the second
    decorator deals with, or any other exception. *)
Inductive signal : Type :=
| KeyboardInterrupt
| SystemExit (code : Z)
| Error (e : exn).

Inductive outcome (A : Type) : Type :=
| Completed (a : A)
| Interrupted (sig : signal).
Arguments Completed {A} a.
Arguments Interrupted {A} sig.

Section WithFunc.
(** The state of [self], and the decorated method applied to its
    arguments: [func(self, *args, **kwargs)]. *)
Context {S A : Type}.
Variable func : S -> S * outcome A.

Definition wrap_locals : gset string :=
  list_to_set ["self"; "args"; "kwargs"].
Definition wrap_enclosing : gset string := list_to_set ["func"].

(** [sys.exit(code)], read after [del self] has unbound that name. *)
Definition sys_exit (code : Z) : signal :=
  match resolve_name (wrap_locals ∖ {["self"]}) wrap_enclosing "sys" with
  | Some _ => SystemExit code
  | None => Error (NameError "sys")
  end.

(** The function [keyboard_interrupt(func)] returns. *)
Definition wrap : S -> S * outcome A :=
  fun s =>
    match func s with
    | (s', Interrupted KeyboardInterrupt) => (s', Interrupted (sys_exit 0))
    | out => out
    end.
Definition keyboard_interrupt : S -> S * outcome A := wrap.
End WithFunc.

End decorator.

(** ** Concrete instances

    A model given by the two arrays it answers with, and a task whose
    rollouts are deterministic; the statements below are run on them. *)

Module Demo.

Record robot : Type := mk_robot {
  cmm : matrix;
  distances : vector
}.

#[global] Instance robot_model : ModelInterface robot := {|
  get_centroidal_momentum_matrix := cmm;
  get_link_pair_distances := distances
|}.

Definition fl (z : Z) : pyfloat := Finite (inject_Z z).

(** A 6x2 centroidal momentum matrix. *)
Definition standing : robot :=
  {| cmm := [[fl 1; fl 2]; [fl 3; fl 4]; [fl 5; fl 6];
             [fl 7; fl 8]; [fl 9; fl 10]; [fl 11; fl 12]];
     distances := [fl 4; fl 2] |}.

(** One row [-1 ... -1] bounded by the first distance. *)
Definition keep_apart (d : vector) : matrix * vector :=
  ([(fun _ => fl (-1)) <$> d], take 1 d).

Definition momentum : vector := [fl 1; fl (-2); fl 3].

(** A task whose state counts the steps run so far and whose return is
    that count. *)
Definition counting_run (num_steps : Z) (steps : Z) : pyfloat * Z :=
  (fl (steps + num_steps), steps + num_steps).

(** The exact mean of finite values. *)
Definition exact_mean (l : list pyfloat) : pyfloat :=
  match l with
  | [] => NaN
  | _ =>
      let total :=
        fold_right
          (fun x acc => match x with Finite q => Qplus q acc | _ => acc end)
          (inject_Z 0) l in
      Finite (Qred (Qdiv total (inject_Z (Z.of_nat (length l)))))
  end.

Definition fresh_task : AngularMomentumTask.t Constraint.t :=
  {| AngularMomentumTask.base := Task.mk AngularMomentumTask.default_weight [];
     AngularMomentumTask._des_k := Some (Nd1 momentum);
     AngularMomentumTask._A := None;
     AngularMomentumTask._b := None |}.

Definition refresh (model : robot) (c : Constraint.t) : Constraint.t :=
  (Constraint.update keep_apart model c).1.

Definition metric : AverageReturnMetric.t Z :=
  {| AverageReturnMetric._gamma := Some (Finite 1);
     AverageReturnMetric._task := Some 0;
     AverageReturnMetric.returns := Some [];
     AverageReturnMetric._num_steps := Some 10;
     AverageReturnMetric._num_rollouts := Some 3 |}.

End Demo.

(** * Properties *)

(** ** Running a method body *)

Lemma run_bind {St A B} (m : Py St A) (k : A -> Py St B) (s : St) :
  (m ≫= k) s =
  match m s with
  | (s', Returned a) => k a s'
  | (s', Raised e) => (s', Raised e)
  end.
Proof. reflexivity. Qed.

Lemma run_modify {St} (g : St -> St) (s : St) :
  modify g s = (g s, Returned tt).
Proof. reflexivity. Qed.

Lemma run_attr_set {St A} name (field : St -> option A) (s : St) (a : A) :
  field s = Some a -> attr name field s = (s, Returned a).
Proof. intros E. unfold attr. now rewrite E. Qed.

Lemma run_attr_unset {St A} name (field : St -> option A) (s : St) :
  field s = None -> attr name field s = (s, Raised (AttributeError name)).
Proof. intros E. unfold attr. now rewrite E. Qed.

(** ** The angular momentum task *)

Section AngularMomentumTaskFacts.
Import AngularMomentumTask.
Context {M : Type} `{ModelInterface M} {C : Type}.
Variable update_constraint : M -> C -> C.

Lemma _update_set (model : M) (x : pyobj) (self : t C) (k : ndarray) :
  _des_k self = Some k ->
  _update model x self =
  (set_b k (set_A (rows_upto 3 (get_centroidal_momentum_matrix model)) self),
   Returned tt).
Proof.
  intros E. unfold _update. rewrite run_bind, run_modify, run_bind.
  rewrite (run_attr_set _ _ _ k) by exact E. reflexivity.
Qed.

Lemma _update_unset (model : M) (x : pyobj) (self : t C) :
  _des_k self = None ->
  _update model x self =
  (set_A (rows_upto 3 (get_centroidal_momentum_matrix model)) self,
   Raised (AttributeError "_des_k")).
Proof.
  intros E. unfold _update. rewrite run_bind, run_modify, run_bind.
  rewrite run_attr_unset by exact E. reflexivity.
Qed.

Lemma update_set (model : M) (x : pyobj) (self : t C) (k : ndarray) :
  _des_k self = Some k ->
  update update_constraint model x self =
  (set_constraints
     (update_constraint model <$> Task.constraints (base self))
     (set_b k (set_A (rows_upto 3 (get_centroidal_momentum_matrix model)) self)),
   Returned tt).
Proof.
  intros E. unfold update. rewrite run_bind, (_update_set _ _ _ k) by exact E.
  reflexivity.
Qed.

Lemma update_unset (model : M) (x : pyobj) (self : t C) :
  _des_k self = None ->
  update update_constraint model x self =
  (set_A (rows_upto 3 (get_centroidal_momentum_matrix model)) self,
   Raised (AttributeError "_des_k")).
Proof.
  intros E. unfold update. rewrite run_bind, _update_unset by exact E.
  reflexivity.
Qed.

(** The setter on a sequence of three numbers stores them as an array. *)
Lemma setter_stores (o : pyobj) (xs : vector) (self : t C) :
  o = PyList xs \/ o = PyTuple xs \/ o = PyNdarray (Nd1 xs) ->
  length xs = 3%nat ->
  desired_angular_momentum_set o self = (set_des_k (Nd1 xs) self, Returned tt).
Proof.
  intros [-> | [-> | ->]] L;
    unfold desired_angular_momentum_set; cbn; rewrite L; reflexivity.
Qed.

(** Past the [isinstance] test the setter is decided by the length alone. *)
Lemma setter_by_length (o : pyobj) (self : t C) :
  is_array_like o = true ->
  desired_angular_momentum_set o self =
  match np_len (np_asarray o) with
  | None => (self, Raised TypeError)
  | Some n =>
      if negb (n =? 3)%nat then (self, Raised ValueError)
      else (set_des_k (np_asarray o) self, Returned tt)
  end.
Proof.
  intros A. destruct o; try discriminate A;
    unfold desired_angular_momentum_set; cbn;
    repeat match goal with
           | |- context [match ?a with _ => _ end] => destruct a
           end; reflexivity.
Qed.

Lemma setter_none (self : t C) :
  desired_angular_momentum_set PyNone self =
  (set_des_k (np_zeros 3) self, Returned tt).
Proof. reflexivity. Qed.
End AngularMomentumTaskFacts.

(** C1. Every call of [update()] (and of the [_update] it runs) on a task
    with a stored desired angular momentum [k] sets [A] to the first three
    rows of the centroidal momentum matrix the model answers with on that
    call, whatever [A] held before, and sets [b] to [k]; the call returns
    nothing. Across two ticks, [A] follows the model of the second. *)
Theorem update_refetches_momentum_matrix
  {M : Type} `{ModelInterface M} {C : Type} (update_constraint : M -> C -> C)
  (model later : M) (x : pyobj) (self : AngularMomentumTask.t C) (k : ndarray) :
  AngularMomentumTask._des_k self = Some k ->
  let direct := AngularMomentumTask._update model x self in
  let once := AngularMomentumTask.update update_constraint model x self in
  let twice := AngularMomentumTask.update update_constraint later x once.1 in
  direct.2 = Returned tt /\
  AngularMomentumTask._A direct.1
    = Some (take 3 (get_centroidal_momentum_matrix model)) /\
  AngularMomentumTask._b direct.1 = Some k /\
  once.2 = Returned tt /\
  AngularMomentumTask._A once.1
    = Some (take 3 (get_centroidal_momentum_matrix model)) /\
  AngularMomentumTask._b once.1 = Some k /\
  AngularMomentumTask._A twice.1
    = Some (take 3 (get_centroidal_momentum_matrix later)) /\
  AngularMomentumTask._b twice.1 = Some k.
Proof.
  intros E direct once twice. subst direct once twice.
  rewrite (_update_set model x self k E).
  rewrite (update_set update_constraint model x self k E).
  cbn [fst snd].
  rewrite (update_set update_constraint later x _ k) by exact E.
  cbn. repeat split; reflexivity.
Qed.

Lemma update_refetches_momentum_matrix_witness :
  let once :=
    AngularMomentumTask.update Demo.refresh Demo.standing PyNone
      Demo.fresh_task in
  AngularMomentumTask._A once.1
    = Some [[Demo.fl 1; Demo.fl 2]; [Demo.fl 3; Demo.fl 4];
            [Demo.fl 5; Demo.fl 6]] /\
  AngularMomentumTask._b once.1 = Some (Nd1 Demo.momentum).
Proof.
  pose proof (update_refetches_momentum_matrix Demo.refresh
                Demo.standing Demo.standing PyNone Demo.fresh_task
                (Nd1 Demo.momentum) eq_refl) as P.
  cbv zeta in P. destruct P as (_ & _ & _ & _ & PA & Pb & _).
  split; [exact PA | exact Pb].
Defined.

(** C2. For every sequence [v] of three numbers, given as a list, a tuple or
    an array, [set_desired_references(v)] followed by
    [get_desired_references()] returns an array with exactly the items of
    [v], in order. *)
Theorem desired_references_round_trip
  {C : Type} (self : AngularMomentumTask.t C) (o : pyobj) (xs : vector) :
  o = PyList xs \/ o = PyTuple xs \/ o = PyNdarray (Nd1 xs) ->
  length xs = 3%nat ->
  (AngularMomentumTask.set_desired_references o;;
   AngularMomentumTask.get_desired_references) self
  = (AngularMomentumTask.set_des_k (Nd1 xs) self, Returned (Nd1 xs)).
Proof.
  intros Ho L. rewrite run_bind.
  unfold AngularMomentumTask.set_desired_references,
    AngularMomentumTask.x_desired_set.
  rewrite (setter_stores o xs self Ho L). reflexivity.
Qed.

Lemma desired_references_round_trip_witness :
  (AngularMomentumTask.set_desired_references (PyTuple Demo.momentum);;
   AngularMomentumTask.get_desired_references) Demo.fresh_task
  = (AngularMomentumTask.set_des_k (Nd1 Demo.momentum) Demo.fresh_task,
     Returned (Nd1 Demo.momentum)).
Proof.
  apply (desired_references_round_trip Demo.fresh_task
           (PyTuple Demo.momentum) Demo.momentum).
  - right. left. reflexivity.
  - reflexivity.
Defined.

(** C3. A task constructed without a desired reference, with a weight the
    base class accepts, is built without an error and stores the zero
    3-vector as its reference and as [b]; setting the reference of any task
    to [None] and updating does the same. *)
Theorem default_reference_is_zero
  {M : Type} `{ModelInterface M} {C : Type} (update_constraint : M -> C -> C)
  (model : M) (weight : Weight) (constraints : list C)
  (other : AngularMomentumTask.t C) :
  Task.weight_ok weight = true ->
  let zero := Nd1 [Finite 0; Finite 0; Finite 0] in
  (exists self,
     AngularMomentumTask.__init__ update_constraint model PyNone weight
       constraints = Returned self /\
     AngularMomentumTask._des_k self = Some zero /\
     AngularMomentumTask._b self = Some zero) /\
  let after :=
    (AngularMomentumTask.set_desired_references PyNone;;
     AngularMomentumTask.update update_constraint model PyNone) other in
  after.2 = Returned tt /\
  AngularMomentumTask._des_k after.1 = Some zero /\
  AngularMomentumTask._b after.1 = Some zero.
Proof.
  intros W zero. split.
  - unfold AngularMomentumTask.__init__, Task.__init__. rewrite W. cbn.
    eexists. split; [reflexivity | split; reflexivity].
  - cbn. repeat split; reflexivity.
Qed.

Lemma default_reference_is_zero_witness :
  exists self,
    AngularMomentumTask.__init__ Demo.refresh Demo.standing PyNone
      AngularMomentumTask.default_weight [] = Returned self /\
    AngularMomentumTask._b self = Some (Nd1 [Finite 0; Finite 0; Finite 0]).
Proof.
  destruct (default_reference_is_zero Demo.refresh Demo.standing
              AngularMomentumTask.default_weight [] Demo.fresh_task
              eq_refl) as [[self (I & _ & B)] _].
  exists self. split; [exact I | exact B].
Defined.

(** C4. On a task holding a reference [k], [set_desired_references] with an
    array-like whose length is not 3 raises [ValueError] and changes
    nothing: the task is as before and still answers [k]. *)
Theorem wrong_length_is_rejected
  {C : Type} (self : AngularMomentumTask.t C) (k : ndarray) (o : pyobj)
  (n : nat) :
  AngularMomentumTask._des_k self = Some k ->
  is_array_like o = true ->
  np_len (np_asarray o) = Some n ->
  n <> 3%nat ->
  AngularMomentumTask.set_desired_references o self
    = (self, Raised ValueError) /\
  AngularMomentumTask.get_desired_references
    (AngularMomentumTask.set_desired_references o self).1
    = (self, Returned k).
Proof.
  intros K A L N.
  assert (S : AngularMomentumTask.set_desired_references o self
              = (self, Raised ValueError)).
  { unfold AngularMomentumTask.set_desired_references,
      AngularMomentumTask.x_desired_set.
    rewrite (setter_by_length o self A), L.
    apply Nat.eqb_neq in N. rewrite N. reflexivity. }
  split; [exact S |]. rewrite S. cbn [fst].
  unfold AngularMomentumTask.get_desired_references,
    AngularMomentumTask.x_desired.
  apply run_attr_set. exact K.
Qed.

Lemma wrong_length_is_rejected_witness :
  AngularMomentumTask.set_desired_references
    (PyList [Demo.fl 1; Demo.fl 2]) Demo.fresh_task
  = (Demo.fresh_task, Raised ValueError).
Proof.
  refine (proj1 (wrong_length_is_rejected Demo.fresh_task
                   (Nd1 Demo.momentum)
                   (PyList [Demo.fl 1; Demo.fl 2]) 2
                   eq_refl eq_refl eq_refl _)).
  discriminate.
Defined.

(** C5. With the model unchanged, a second [update()] leaves [(A, b)]
    exactly as the first one set them and ends the same way; the same
    holds of [_update], which then changes nothing at all. *)
Theorem update_is_idempotent
  {M : Type} `{ModelInterface M} {C : Type} (update_constraint : M -> C -> C)
  (model : M) (x : pyobj) (self : AngularMomentumTask.t C) :
  let once := AngularMomentumTask.update update_constraint model x self in
  let twice := AngularMomentumTask.update update_constraint model x once.1 in
  AngularMomentumTask._A twice.1 = AngularMomentumTask._A once.1 /\
  AngularMomentumTask._b twice.1 = AngularMomentumTask._b once.1 /\
  twice.2 = once.2 /\
  AngularMomentumTask._update model x
    (AngularMomentumTask._update model x self).1
  = AngularMomentumTask._update model x self.
Proof.
  intros once twice. subst once twice.
  destruct (AngularMomentumTask._des_k self) as [k|] eqn:E.
  - rewrite (update_set update_constraint model x self k E),
      (_update_set model x self k E).
    cbn [fst snd].
    rewrite (update_set update_constraint model x _ k) by exact E.
    rewrite (_update_set model x _ k) by exact E.
    repeat split; reflexivity.
  - rewrite (update_unset update_constraint model x self E),
      (_update_unset model x self E).
    cbn [fst snd].
    rewrite (update_unset update_constraint model x) by exact E.
    rewrite (_update_unset model x) by exact E.
    repeat split; reflexivity.
Qed.

(** ** The self-collision avoidance constraint *)

(** The class body defines [__init__] only: [update] is the base class's. *)
Lemma update_is_inherited :
  SelfCollisionAvoidanceConstraint.resolve "update"
    = Some SelfCollisionAvoidanceConstraint.Base /\
  SelfCollisionAvoidanceConstraint.resolve "__init__"
    = Some SelfCollisionAvoidanceConstraint.Self.
Proof. split; reflexivity. Qed.

(** C6. [SelfCollisionAvoidanceConstraint.update()] recomputes the
    inequality matrices from the link-pair distances the model gives on
    that call, whatever they were before, returns nothing, and the new
    [(A_ineq, b_ineq)] is all it changes. *)
Theorem self_collision_update_recomputes
  {M : Type} `{ModelInterface M} (inequality_rows : vector -> matrix * vector)
  (model : M) (self : Constraint.t) :
  let rows := inequality_rows (get_link_pair_distances model) in
  SelfCollisionAvoidanceConstraint.update inequality_rows model self
  = ({| Constraint.A_ineq := Some rows.1; Constraint.b_ineq := Some rows.2 |},
     Returned tt).
Proof. reflexivity. Qed.

(** ** The average return metric *)

Lemma clamp_within (q : Q) :
  (0 <= q)%Q -> (q <= 1)%Q ->
  float_gt (Finite q) (Finite 1) = false /\
  float_lt (Finite q) (Finite 0) = false.
Proof.
  intros L U. unfold float_gt, float_lt.
  apply Qle_bool_iff in L. apply Qle_bool_iff in U.
  rewrite L, U. split; reflexivity.
Qed.

Lemma clamp_above (q : Q) :
  (1 < q)%Q -> float_gt (Finite q) (Finite 1) = true.
Proof.
  intros L. unfold float_gt, float_lt.
  destruct (Qle_bool q 1) eqn:E; [| reflexivity].
  apply Qle_bool_iff in E. exfalso. exact (Qlt_not_le _ _ L E).
Qed.

Lemma clamp_below (q : Q) :
  (q < 0)%Q ->
  float_gt (Finite q) (Finite 1) = false /\
  float_lt (Finite q) (Finite 0) = true.
Proof.
  intros L. unfold float_gt, float_lt. split.
  - destruct (Qle_bool q 1) eqn:E; [reflexivity |].
    exfalso. apply not_true_iff_false in E. apply E, Qle_bool_iff.
    apply Qlt_le_weak. eapply Qlt_trans; [exact L | reflexivity].
  - destruct (Qle_bool 0 q) eqn:E; [| reflexivity].
    apply Qle_bool_iff in E. exfalso. exact (Qlt_not_le _ _ L E).
Qed.

(** C7. The [gamma] setter never rejects its argument: [1.5] is stored as
    [1.0] and [-0.2] as [0.0], on an existing metric and at construction;
    more generally a value above 1 is stored as 1, a value below 0 as 0,
    and a value within [[0, 1]] as it is. *)
Theorem gamma_is_clamped
  {RLTask : Type} (task : RLTask) (num_rollouts num_steps : Z)
  (self : AverageReturnMetric.t RLTask) :
  let stored g :=
    AverageReturnMetric._gamma (AverageReturnMetric.gamma_set g self).1 in
  let built g :=
    AverageReturnMetric.__init__ (inl task) g num_rollouts num_steps in
  stored (Finite (3 # 2)) = Some (Finite 1) /\
  stored minus_point_two = Some (Finite 0) /\
  (exists m, built (Finite (3 # 2)) = Returned m /\
             AverageReturnMetric._gamma m = Some (Finite 1)) /\
  (exists m, built minus_point_two = Returned m /\
             AverageReturnMetric._gamma m = Some (Finite 0)) /\
  (forall q, (1 < q)%Q -> stored (Finite q) = Some (Finite 1)) /\
  (forall q, (q < 0)%Q -> stored (Finite q) = Some (Finite 0)) /\
  (forall q, (0 <= q)%Q -> (q <= 1)%Q -> stored (Finite q) = Some (Finite q)) /\
  (forall g, (AverageReturnMetric.gamma_set g self).2 = Returned tt).
Proof.
  intros stored built. subst stored built.
  repeat apply conj; try reflexivity.
  - eexists. split; reflexivity.
  - eexists. split; reflexivity.
  - intros q L. unfold AverageReturnMetric.gamma_set.
    rewrite (clamp_above q L). reflexivity.
  - intros q L. unfold AverageReturnMetric.gamma_set.
    destruct (clamp_below q L) as [-> ->]. reflexivity.
  - intros q L U. unfold AverageReturnMetric.gamma_set.
    destruct (clamp_within q L U) as [-> ->]. reflexivity.
Qed.

Lemma gamma_is_clamped_witness :
  AverageReturnMetric._gamma
    (AverageReturnMetric.gamma_set (Finite (1 # 2)) Demo.metric).1
  = Some (Finite (1 # 2)).
Proof.
  destruct (gamma_is_clamped 0 3 10 Demo.metric)
    as (_ & _ & _ & _ & _ & _ & W & _).
  apply W; discriminate.
Defined.

Section AverageReturnFacts.
Import AverageReturnMetric.
Context {RLTask : Type}.
Variable run : Z -> RLTask -> pyfloat * RLTask.
Variable np_mean : list pyfloat -> pyfloat.

Lemma set_task_same (self : t RLTask) (k : RLTask) :
  _task self = Some k -> set_task k self = self.
Proof. destruct self; cbn; intros ->; reflexivity. Qed.

Lemma task_run_once (self : t RLTask) (trace : list event) (k : RLTask) (s : Z) :
  _task self = Some k ->
  _num_steps self = Some s ->
  task_run run (self, trace)
  = ((set_task (run s k).2 self, trace ++ [Run s]), Returned (run s k).1).
Proof.
  intros K S. unfold task_run, self_attr.
  rewrite run_bind, (run_attr_set _ _ _ k) by exact K.
  rewrite run_bind, (run_attr_set _ _ _ s) by exact S.
  reflexivity.
Qed.

(** The loop, started with [rewards] already collected. *)
Lemma rollouts_spec (n : nat) :
  forall (rewards : list pyfloat) (self : t RLTask) (trace : list event)
         (k : RLTask) (s : Z),
    _task self = Some k ->
    _num_steps self = Some s ->
    rollouts run n rewards (self, trace)
    = ((set_task (rollout_returns run n s k).2 self,
        trace ++ replicate n (Run s)),
       Returned (rewards ++ (rollout_returns run n s k).1)).
Proof.
  induction n as [|n IH]; intros rewards self trace k s K S.
  - cbn. rewrite (set_task_same self k K), !app_nil_r. reflexivity.
  - cbn [rollouts rollout_returns]. rewrite run_bind.
    rewrite (task_run_once self trace k s K S).
    rewrite (IH (rewards ++ [(run s k).1]) (set_task (run s k).2 self)
               (trace ++ [Run s]) (run s k).2 s eq_refl S).
    cbn [fst snd replicate]. rewrite <- !app_assoc. reflexivity.
Qed.

Lemma rollout_returns_length (n : nat) :
  forall (s : Z) (k : RLTask), length (rollout_returns run n s k).1 = n.
Proof.
  induction n as [|n IH]; intros s k; cbn; [reflexivity |].
  now rewrite IH.
Qed.
End AverageReturnFacts.

(** C8. On a metric with [num_rollouts = r] and [num_steps = s], one call of
    [_end_episode_update()] runs the task [r] times, each time with
    [num_steps = s] and from the state the previous run left, prints, and
    appends one value to the history: the mean of the [r] returns, in the
    order they came. *)
Theorem end_episode_update_averages_rollouts
  {RLTask : Type} (run : Z -> RLTask -> pyfloat * RLTask)
  (np_mean : list pyfloat -> pyfloat)
  (self : AverageReturnMetric.t RLTask) (trace : list event)
  (k : RLTask) (s r : Z) (history : list pyfloat) :
  AverageReturnMetric._task self = Some k ->
  AverageReturnMetric._num_steps self = Some s ->
  AverageReturnMetric._num_rollouts self = Some r ->
  AverageReturnMetric.returns self = Some history ->
  0 <= r ->
  let rolled := AverageReturnMetric.rollout_returns run (Z.to_nat r) s k in
  let done :=
    AverageReturnMetric._end_episode_update run np_mean (self, trace) in
  Z.of_nat (length rolled.1) = r /\
  done
  = ((AverageReturnMetric.set_returns (history ++ [np_mean rolled.1])
        (AverageReturnMetric.set_task rolled.2 self),
      trace ++ replicate (Z.to_nat r) (Run s) ++ [Printed (np_mean rolled.1)]),
     Returned tt) /\
  done.2 = Returned tt /\
  AverageReturnMetric.returns done.1.1
  = Some (history ++ [np_mean rolled.1]) /\
  AverageReturnMetric._task done.1.1 = Some rolled.2 /\
  done.1.2
  = trace ++ replicate (Z.to_nat r) (Run s) ++ [Printed (np_mean rolled.1)] /\
  AverageReturnMetric._num_steps done.1.1 = Some s /\
  AverageReturnMetric._num_rollouts done.1.1 = Some r /\
  AverageReturnMetric._gamma done.1.1 = AverageReturnMetric._gamma self.
Proof.
  intros K S R L Hr rolled done. subst rolled.
  assert (E : done
              = ((AverageReturnMetric.set_returns
                    (history ++
                     [np_mean (AverageReturnMetric.rollout_returns run
                                 (Z.to_nat r) s k).1])
                    (AverageReturnMetric.set_task
                       (AverageReturnMetric.rollout_returns run
                          (Z.to_nat r) s k).2 self),
                  trace ++ replicate (Z.to_nat r) (Run s) ++
                  [Printed (np_mean (AverageReturnMetric.rollout_returns run
                                       (Z.to_nat r) s k).1)]),
                 Returned tt)).
  { subst done.
    unfold AverageReturnMetric._end_episode_update,
      AverageReturnMetric.self_attr.
    rewrite run_bind, (run_attr_set _ _ _ r) by exact R.
    rewrite run_bind, (rollouts_spec run (Z.to_nat r) [] self trace k s K S).
    cbn [app]. rewrite run_bind. unfold AverageReturnMetric.emit.
    rewrite run_modify, run_bind. cbn [fst snd].
    rewrite (run_attr_set _ _ _ history) by exact L.
    rewrite run_modify. cbn [fst snd]. rewrite <- app_assoc. reflexivity. }
  split; [rewrite rollout_returns_length; lia |].
  split; [exact E |]. rewrite E. cbn [fst snd].
  repeat split; try reflexivity; cbn; assumption.
Qed.

Lemma end_episode_update_averages_rollouts_witness :
  let done :=
    AverageReturnMetric._end_episode_update Demo.counting_run
      Demo.exact_mean (Demo.metric, []) in
  AverageReturnMetric.returns done.1.1 = Some [Demo.fl 20] /\
  AverageReturnMetric._task done.1.1 = Some 30 /\
  done.1.2 = [Run 10; Run 10; Run 10; Printed (Demo.fl 20)].
Proof.
  assert (Hr : 0 <= 3) by discriminate.
  destruct (end_episode_update_averages_rollouts Demo.counting_run
              Demo.exact_mean Demo.metric [] 0 10 3 []
              eq_refl eq_refl eq_refl eq_refl Hr)
    as (_ & _ & _ & Hret & Htask & Htrace & _).
  cbv zeta. split; [exact Hret | split; [exact Htask | exact Htrace]].
Defined.

(** ** The loss metric *)

(** Comparing a slice with a word of that length is the prefix test. *)
Lemma str_upto_prefix (p : string) :
  forall s : string,
    String.eqb (str_upto (String.length p) s) p = String.prefix p s.
Proof.
  induction p as [|a p IH]; intros s.
  - destruct s; reflexivity.
  - destruct s as [|b s]; [reflexivity |].
    cbn. unfold str_upto in IH. rewrite IH.
    destruct (ascii_dec a b) as [->|N].
    + now rewrite Ascii.eqb_refl.
    + destruct (Ascii.eqb b a) eqn:E; [| reflexivity].
      apply Ascii.eqb_eq in E. congruence.
Qed.

Lemma prefix_cons (a b : ascii) (p s : string) :
  String.prefix (String a p) (String b s) = true ->
  a = b /\ String.prefix p s = true.
Proof.
  cbn. destruct (ascii_dec a b); [auto | discriminate].
Qed.

(** No string starts with both words: they part at the third letter. *)
Lemma epoch_not_episode (s : string) :
  String.prefix "epoch" s = true -> String.prefix "episode" s = false.
Proof.
  intros P.
  destruct s as [|c1 s]; [discriminate P |].
  apply prefix_cons in P as [<- P].
  destruct s as [|c2 s]; [discriminate P |].
  apply prefix_cons in P as [<- P].
  destruct s as [|c3 s]; [discriminate P |].
  apply prefix_cons in P as [<- _].
  reflexivity.
Qed.

Lemma wrt_set_string {BatchLoss : Type} (self : LossMetric.t BatchLoss)
  (s : string) :
  LossMetric.wrt_set (Some s) self
  = (LossMetric.set_wrt
       (if String.prefix "episode" (lower s) then "episode"
        else if String.prefix "epoch" (lower s) then "epoch"
        else "iteration") self,
     Returned tt).
Proof.
  pose proof (str_upto_prefix "episode" (lower s)) as E7.
  pose proof (str_upto_prefix "epoch" (lower s)) as E5.
  change (String.length "episode") with 7%nat in E7.
  change (String.length "epoch") with 5%nat in E5.
  unfold LossMetric.wrt_set. rewrite E7, E5. reflexivity.
Qed.

(** C9. The [wrt] setter stores ['episode'] for every string whose
    lower-cased form starts with ['episode'], ['epoch'] for every string
    whose lower-cased form starts with ['epoch'] (so for ['EPOCHS']), and
    ['iteration'] for every other string (so for ['bogus']) and for
    [None]; it never raises. *)
Theorem wrt_is_normalized
  {BatchLoss : Type} (self : LossMetric.t BatchLoss) :
  let stored w := LossMetric._wrt (LossMetric.wrt_set w self).1 in
  (forall s, String.prefix "episode" (lower s) = true ->
             stored (Some s) = Some "episode") /\
  (forall s, String.prefix "epoch" (lower s) = true ->
             stored (Some s) = Some "epoch") /\
  (forall s, String.prefix "episode" (lower s) = false ->
             String.prefix "epoch" (lower s) = false ->
             stored (Some s) = Some "iteration") /\
  stored None = Some "iteration" /\
  stored (Some "EPOCHS") = Some "epoch" /\
  stored (Some "bogus") = Some "iteration" /\
  (forall w, (LossMetric.wrt_set w self).2 = Returned tt).
Proof.
  intros stored. subst stored. repeat apply conj; try reflexivity.
  - intros s P. rewrite wrt_set_string, P. reflexivity.
  - intros s P. rewrite wrt_set_string, (epoch_not_episode _ P), P.
    reflexivity.
  - intros s P Q. rewrite wrt_set_string, P, Q. reflexivity.
Qed.

Lemma wrt_is_normalized_witness :
  LossMetric._wrt
    (LossMetric.wrt_set (Some "Episodes") (LossMetric.new (BatchLoss:=unit))).1
  = Some "episode".
Proof.
  destruct (wrt_is_normalized (LossMetric.new (BatchLoss:=unit)))
    as (W & _).
  apply W. reflexivity.
Defined.

(** ** The [convert_numpy] decorator *)

Section WrapperFacts.
Import decorator.
Context {S : Type}.

Lemma load_found (name : string) (sc : scope) (w : world (S:=S)) :
  resolve_name wrapper_locals wrapper_enclosing name = Some sc ->
  load_name name w = (w, Returned sc).
Proof. intros E. unfold load_name. now rewrite E. Qed.

Lemma load_unbound (name : string) (w : world (S:=S)) :
  resolve_name wrapper_locals wrapper_enclosing name = None ->
  load_name name w = (w, Raised (NameError name)).
Proof. intros E. unfold load_name. now rewrite E. Qed.

Lemma np_is_unbound :
  resolve_name wrapper_locals wrapper_enclosing "np" = None.
Proof. vm_compute. reflexivity. Qed.

Lemma isinstance_is_builtin :
  resolve_name wrapper_locals wrapper_enclosing "isinstance" = Some Builtin.
Proof. vm_compute. reflexivity. Qed.

Lemma x_is_local :
  resolve_name wrapper_locals wrapper_enclosing "x" = Some Local.
Proof. vm_compute. reflexivity. Qed.
End WrapperFacts.

(** C10. Every call of the wrapper [convert_numpy] builds raises
    [NameError] on the name [np], for every decorated function, every
    argument and every state, before any conversion and before the
    decorated function runs: the module binds [numpy] but not [np]. So no
    call returns a value. *)
Theorem convert_numpy_raises_name_error
  {S : Type} (f : decorator.data -> Py S decorator.data)
  (x : decorator.data) (to_numpy : bool) (w : S * list decorator.step) :
  decorator.convert_numpy f x to_numpy w = (w, Raised (NameError "np")) /\
  ("numpy" ∈ decorator.module_globals) /\
  ("np" ∉ decorator.module_globals) /\
  forall v, (decorator.convert_numpy f x to_numpy w).2 <> Returned v.
Proof.
  assert (E : decorator.convert_numpy f x to_numpy w
              = (w, Raised (NameError "np"))).
  { unfold decorator.convert_numpy, decorator.wrapper.
    rewrite run_bind, (load_found _ _ w isinstance_is_builtin).
    rewrite run_bind, (load_found _ _ w x_is_local).
    rewrite run_bind, (load_unbound _ w np_is_unbound).
    reflexivity. }
  repeat apply conj.
  - exact E.
  - apply (proj1 (bool_decide_eq_true _)). vm_compute. reflexivity.
  - apply (proj1 (bool_decide_eq_false _)). vm_compute. reflexivity.
  - intros v. rewrite E. discriminate.
Qed.


(** * Further properties of the same code *)

(** ** The angular momentum task: what the setter accepts *)

Section ReferenceFacts.
Import AngularMomentumTask.
Context {C : Type}.

(** The setter either changes nothing and raises, or stores an array whose
    first axis has length 3 and touches nothing else. *)
Lemma setter_cases (o : pyobj) (self : t C) :
  (exists e, (e = TypeError \/ e = ValueError) /\
             set_desired_references o self = (self, Raised e)) \/
  (exists k, np_len k = Some 3%nat /\
             set_desired_references o self = (set_des_k k self, Returned tt)).
Proof.
  unfold set_desired_references, x_desired_set.
  destruct o as [| x | s | xs | xs | a].
  - right. exists (np_zeros 3). split; reflexivity.
  - left. exists TypeError. split; [left |]; reflexivity.
  - left. exists TypeError. split; [left |]; reflexivity.
  - rewrite setter_by_length by reflexivity. cbn [np_asarray np_len].
    destruct (length xs =? 3)%nat eqn:E; cbn [negb].
    + right. exists (Nd1 xs). apply Nat.eqb_eq in E.
      split; [cbn; now rewrite E | reflexivity].
    + left. exists ValueError. split; [right |]; reflexivity.
  - rewrite setter_by_length by reflexivity. cbn [np_asarray np_len].
    destruct (length xs =? 3)%nat eqn:E; cbn [negb].
    + right. exists (Nd1 xs). apply Nat.eqb_eq in E.
      split; [cbn; now rewrite E | reflexivity].
    + left. exists ValueError. split; [right |]; reflexivity.
  - rewrite setter_by_length by reflexivity. cbn [np_asarray].
    destruct (np_len a) as [n|] eqn:L.
    + destruct (n =? 3)%nat eqn:E; cbn [negb].
      * right. exists a. apply Nat.eqb_eq in E. subst n.
        split; [exact L | reflexivity].
      * left. exists ValueError. split; [right |]; reflexivity.
    + left. exists TypeError. split; [left |]; reflexivity.
Qed.
End ReferenceFacts.

(** X1. A desired reference that is neither [None] nor a list, tuple or
    array, or that is an array without a first axis, raises [TypeError]
    and leaves the task exactly as it was. *)
Theorem reference_of_wrong_type_is_rejected
  {C : Type} (self : AngularMomentumTask.t C) (o : pyobj) :
  (o <> PyNone /\ is_array_like o = false) \/
  (exists a, o = PyNdarray a /\ np_len a = None) ->
  AngularMomentumTask.set_desired_references o self
  = (self, Raised TypeError).
Proof.
  intros [[N A] | [a [-> L]]].
  - destruct o; try discriminate A; try reflexivity. contradiction.
  - unfold AngularMomentumTask.set_desired_references,
      AngularMomentumTask.x_desired_set.
    rewrite setter_by_length by reflexivity. cbn [np_asarray].
    rewrite L. reflexivity.
Qed.

Lemma reference_of_wrong_type_is_rejected_witness :
  AngularMomentumTask.set_desired_references (PyFloat (Demo.fl 2))
    Demo.fresh_task = (Demo.fresh_task, Raised TypeError) /\
  AngularMomentumTask.set_desired_references
    (PyNdarray (Nd0 (Demo.fl 2))) Demo.fresh_task
  = (Demo.fresh_task, Raised TypeError).
Proof.
  split.
  - apply (reference_of_wrong_type_is_rejected Demo.fresh_task).
    left. split; [discriminate | reflexivity].
  - apply (reference_of_wrong_type_is_rejected Demo.fresh_task).
    right. eexists. split; reflexivity.
Defined.

(** X2. The setter returns normally exactly for [None] and for lists,
    tuples and arrays whose first axis has length 3, and then stores the
    array built from the argument; nothing else about the shape is looked
    at, so a matrix of three rows is stored as the reference. *)
Theorem reference_is_checked_by_length_only
  {C : Type} (self : AngularMomentumTask.t C) (o : pyobj) :
  ((AngularMomentumTask.set_desired_references o self).2 = Returned tt <->
   o = PyNone \/
   (is_array_like o = true /\ np_len (np_asarray o) = Some 3%nat)) /\
  (is_array_like o = true -> np_len (np_asarray o) = Some 3%nat ->
   let stored := (AngularMomentumTask.set_desired_references o self).1 in
   AngularMomentumTask.set_desired_references o self
   = (AngularMomentumTask.set_des_k (np_asarray o) self, Returned tt) /\
   AngularMomentumTask._des_k stored = Some (np_asarray o) /\
   AngularMomentumTask.get_desired_references stored
   = (stored, Returned (np_asarray o)) /\
   AngularMomentumTask._A stored = AngularMomentumTask._A self /\
   AngularMomentumTask._b stored = AngularMomentumTask._b self /\
   AngularMomentumTask.base stored = AngularMomentumTask.base self).
Proof.
  assert (Acc : is_array_like o = true ->
                np_len (np_asarray o) = Some 3%nat ->
                AngularMomentumTask.set_desired_references o self
                = (AngularMomentumTask.set_des_k (np_asarray o) self,
                   Returned tt)).
  { intros A L. unfold AngularMomentumTask.set_desired_references,
      AngularMomentumTask.x_desired_set.
    rewrite (setter_by_length o self A), L. reflexivity. }
  split; [| intros A L stored; subst stored; rewrite (Acc A L);
            repeat split; reflexivity ].
  split.
  - intros R. destruct o as [| x | s | xs | xs | a];
      try (left; reflexivity); try discriminate R;
      right; (split; [reflexivity |]);
      unfold AngularMomentumTask.set_desired_references,
        AngularMomentumTask.x_desired_set in R;
      rewrite setter_by_length in R by reflexivity;
      destruct (np_len _) as [n|] eqn:L; try discriminate R;
      destruct (n =? 3)%nat eqn:E; try discriminate R;
      apply Nat.eqb_eq in E; subst n; reflexivity.
  - intros [-> | [A L]]; [reflexivity |]. now rewrite (Acc A L).
Qed.

Lemma reference_is_checked_by_length_only_witness :
  let three_by_two := Nd2 [[Demo.fl 1; Demo.fl 2]; [Demo.fl 3; Demo.fl 4];
                           [Demo.fl 5; Demo.fl 6]] in
  AngularMomentumTask._des_k
    (AngularMomentumTask.set_desired_references (PyNdarray three_by_two)
       Demo.fresh_task).1
  = Some three_by_two.
Proof.
  intros three_by_two.
  destruct (proj2 (reference_is_checked_by_length_only Demo.fresh_task
                     (PyNdarray three_by_two)) eq_refl eq_refl)
    as (_ & D & _).
  exact D.
Defined.

(** ** The angular momentum task: references, updates and sessions *)

(** X3. A new desired reference reaches [b] only at the next update: a
    successful [set_desired_references] leaves [A] and [b] as they were,
    and the [update()] after it returns normally with [b] equal to the
    reference just stored. *)
Theorem reference_reaches_b_at_next_update
  {M : Type} `{ModelInterface M} {C : Type} (update_constraint : M -> C -> C)
  (model : M) (x o : pyobj) (self : AngularMomentumTask.t C) :
  (AngularMomentumTask.set_desired_references o self).2 = Returned tt ->
  let stored := (AngularMomentumTask.set_desired_references o self).1 in
  let updated := AngularMomentumTask.update update_constraint model x stored in
  AngularMomentumTask._A stored = AngularMomentumTask._A self /\
  AngularMomentumTask._b stored = AngularMomentumTask._b self /\
  updated.2 = Returned tt /\
  AngularMomentumTask._b updated.1 = AngularMomentumTask._des_k stored /\
  AngularMomentumTask._des_k updated.1 = AngularMomentumTask._des_k stored.
Proof.
  intros R stored updated. subst stored updated.
  destruct (setter_cases o self) as [(e & _ & E) | (k & _ & E)];
    rewrite E in *; [discriminate R |].
  cbn [fst snd].
  rewrite (update_set update_constraint model x _ k) by reflexivity.
  repeat split; reflexivity.
Qed.

Lemma reference_reaches_b_at_next_update_witness :
  let stored :=
    (AngularMomentumTask.set_desired_references PyNone Demo.fresh_task).1 in
  AngularMomentumTask._b stored = None /\
  AngularMomentumTask._b
    (AngularMomentumTask.update Demo.refresh Demo.standing PyNone stored).1
  = Some (np_zeros 3).
Proof.
  destruct (reference_reaches_b_at_next_update Demo.refresh Demo.standing
              PyNone PyNone Demo.fresh_task eq_refl)
    as (_ & B & _ & U & _).
  cbv zeta in *. split; [exact B | exact U].
Defined.

(** X4. With a weight the base class accepts, the constructor raises what
    the reference setter raises on its argument, without a task being
    built; when the setter accepts the argument, the task is built with
    the stored reference as [b], the first three rows of the model's
    centroidal momentum matrix as [A], and each constraint updated once. *)
Theorem constructor_follows_the_setter
  {M : Type} `{ModelInterface M} {C : Type} (update_constraint : M -> C -> C)
  (model : M) (o : pyobj) (weight : Weight) (constraints : list C) :
  Task.weight_ok weight = true ->
  let blank :=
    {| AngularMomentumTask.base := Task.mk weight constraints;
       AngularMomentumTask._des_k := None;
       AngularMomentumTask._A := None;
       AngularMomentumTask._b := None |} in
  let built :=
    AngularMomentumTask.__init__ update_constraint model o weight
      constraints in
  (forall e,
     (AngularMomentumTask.set_desired_references o blank).2 = Raised e ->
     built = Raised e) /\
  ((AngularMomentumTask.set_desired_references o blank).2 = Returned tt ->
   exists k,
     np_len k = Some 3%nat /\
     built = Returned
       {| AngularMomentumTask.base :=
            Task.mk weight (update_constraint model <$> constraints);
          AngularMomentumTask._des_k := Some k;
          AngularMomentumTask._A :=
            Some (take 3 (get_centroidal_momentum_matrix model));
          AngularMomentumTask._b := Some k |}).
Proof.
  intros W blank built. subst built.
  unfold AngularMomentumTask.__init__, Task.__init__. rewrite W.
  cbn [mbind result_bind]. fold blank. rewrite run_bind.
  change (AngularMomentumTask.desired_angular_momentum_set o blank)
    with (AngularMomentumTask.set_desired_references o blank).
  destruct (setter_cases o blank) as [(e & _ & E) | (k & L & E)];
    rewrite E; cbn [fst snd]; split.
  - intros e' [= <-]. reflexivity.
  - discriminate.
  - discriminate.
  - intros _. exists k. split; [exact L |].
    rewrite (update_set update_constraint model PyNone _ k) by reflexivity.
    reflexivity.
Qed.

Lemma constructor_follows_the_setter_witness :
  AngularMomentumTask.__init__ Demo.refresh Demo.standing
    (PyList [Demo.fl 1; Demo.fl 2]) AngularMomentumTask.default_weight
    [Constraint.mk None None]
  = Raised ValueError.
Proof.
  destruct (constructor_follows_the_setter Demo.refresh Demo.standing
              (PyList [Demo.fl 1; Demo.fl 2])
              AngularMomentumTask.default_weight
              [Constraint.mk None None] eq_refl) as [Bad _].
  apply Bad. reflexivity.
Defined.

Section SessionFacts.
Import AngularMomentumTask.
Context {M : Type} `{ModelInterface M} {C : Type}.
Variable update_constraint : M -> C -> C.


End SessionFacts.



(** ** The average return metric: the discount factor and the history *)

(** X6. Whatever number other than [nan] is given, infinities included, the
    stored discount factor is a finite value within [[0, 1]]; [nan] alone is
    stored as it is. Setting the stored value again changes nothing. *)
Theorem stored_gamma_is_within_bounds
  {RLTask : Type} (self : AverageReturnMetric.t RLTask) (g : pyfloat) :
  exists g',
    AverageReturnMetric._gamma (AverageReturnMetric.gamma_set g self).1
      = Some g' /\
    (g <> NaN -> exists q, g' = Finite q /\ (0 <= q)%Q /\ (q <= 1)%Q) /\
    (g = NaN -> g' = NaN) /\
    AverageReturnMetric.gamma_set g'
      (AverageReturnMetric.gamma_set g self).1
    = AverageReturnMetric.gamma_set g self.
Proof.
  unfold AverageReturnMetric.gamma_set.
  destruct g as [q | | |].
  - destruct (float_gt (Finite q) (Finite 1)) eqn:G.
    + exists (Finite 1). repeat split; try discriminate.
      intros _. exists 1%Q. repeat split; discriminate.
    + destruct (float_lt (Finite q) (Finite 0)) eqn:Lt.
      * exists (Finite 0). repeat split; try discriminate.
        intros _. exists 0%Q. repeat split; discriminate.
      * exists (Finite q). repeat split; try discriminate.
        -- intros _. exists q. split; [reflexivity |].
           unfold float_gt, float_lt in *.
           apply negb_false_iff in G, Lt.
           apply Qle_bool_iff in G, Lt. split; assumption.
        -- rewrite G, Lt. reflexivity.
  - exists (Finite 1). repeat split; try discriminate.
    intros _. exists 1%Q. repeat split; discriminate.
  - exists (Finite 0). repeat split; try discriminate.
    intros _. exists 0%Q. repeat split; discriminate.
  - exists NaN. repeat split; try reflexivity. intros N. contradiction.
Qed.

Lemma stored_gamma_is_within_bounds_witness :
  exists g',
    AverageReturnMetric._gamma
      (AverageReturnMetric.gamma_set PosInf Demo.metric).1 = Some g' /\
    exists q, g' = Finite q /\ (0 <= q)%Q /\ (q <= 1)%Q.
Proof.
  destruct (stored_gamma_is_within_bounds Demo.metric PosInf)
    as (g' & E & R & _).
  exists g'. split; [exact E | apply R; discriminate].
Defined.

(** X7. An [AverageReturnMetric] is built exactly when its task is an
    [RLTask]; any other object raises [TypeError]. A metric just built has
    an empty history, which [_get_data] returns, and holds the task, the
    clamped discount factor and the two counts as given. *)
Theorem average_return_metric_needs_a_task
  {RLTask : Type} (task : RLTask + pyobj) (gamma : pyfloat)
  (num_rollouts num_steps : Z) :
  match task with
  | inr _ =>
      AverageReturnMetric.__init__ task gamma num_rollouts num_steps
      = Raised TypeError
  | inl k =>
      exists self,
        AverageReturnMetric.__init__ task gamma num_rollouts num_steps
          = Returned self /\
        AverageReturnMetric._task self = Some k /\
        AverageReturnMetric._num_rollouts self = Some num_rollouts /\
        AverageReturnMetric._num_steps self = Some num_steps /\
        AverageReturnMetric._gamma self
          = AverageReturnMetric._gamma
              (AverageReturnMetric.gamma_set gamma
                 (AverageReturnMetric.new (RLTask:=RLTask))).1 /\
        AverageReturnMetric._get_data self = (self, Returned [])
  end.
Proof.
  destruct task as [k | o].
  - eexists. split; [reflexivity |]. repeat split; reflexivity.
  - reflexivity.
Qed.

Section EpisodeFacts.
Import AverageReturnMetric.
Context {RLTask : Type}.
Variable run : Z -> RLTask -> pyfloat * RLTask.
Variable np_mean : list pyfloat -> pyfloat.

(** One call, for any count of rollouts: [range] of a negative count is
    empty. *)
Lemma end_episode_update_step (self : t RLTask) (trace : list event)
  (k : RLTask) (s r : Z) (history : list pyfloat) :
  _task self = Some k ->
  _num_steps self = Some s ->
  _num_rollouts self = Some r ->
  returns self = Some history ->
  let rolled := rollout_returns run (Z.to_nat r) s k in
  _end_episode_update run np_mean (self, trace)
  = ((set_returns (history ++ [np_mean rolled.1]) (set_task rolled.2 self),
      trace ++ replicate (Z.to_nat r) (Run s) ++ [Printed (np_mean rolled.1)]),
     Returned tt).
Proof.
  intros K S R L rolled. subst rolled.
  unfold _end_episode_update, self_attr.
  rewrite run_bind, (run_attr_set _ _ _ r) by exact R.
  rewrite run_bind, (rollouts_spec run (Z.to_nat r) [] self trace k s K S).
  cbn [app]. rewrite run_bind. unfold emit.
  rewrite run_modify, run_bind. cbn [fst snd].
  rewrite (run_attr_set _ _ _ history) by exact L.
  rewrite run_modify. cbn [fst snd]. rewrite <- app_assoc. reflexivity.
Qed.

Lemma runs_app (t1 t2 : list event) : runs (t1 ++ t2) = runs t1 ++ runs t2.
Proof. unfold runs. apply omap_app. Qed.

Lemma runs_replicate (n : nat) (s : Z) :
  runs (replicate n (Run s)) = replicate n s.
Proof. induction n as [|n IH]; [reflexivity |]. cbn. f_equal. exact IH. Qed.

(** [n] calls in a row. *)
Lemma episodes_spec (n : nat) :
  forall (self : t RLTask) (trace : list event) (k : RLTask) (s r : Z)
         (history : list pyfloat),
    _task self = Some k ->
    _num_steps self = Some s ->
    _num_rollouts self = Some r ->
    returns self = Some history ->
    let done := episodes run np_mean n (self, trace) in
    done.2 = Returned tt /\
    (exists means, length means = n /\
                   returns done.1.1 = Some (history ++ means)) /\
    runs done.1.2 = runs trace ++ replicate (n * Z.to_nat r) s /\
    _num_steps done.1.1 = Some s /\
    _num_rollouts done.1.1 = Some r /\
    _gamma done.1.1 = _gamma self.
Proof.
  induction n as [|n IH]; intros self trace k s r history K S R L done;
    subst done.
  - cbn. repeat split; try assumption.
    + exists []. split; [reflexivity | now rewrite app_nil_r].
    + now rewrite app_nil_r.
  - cbn [episodes]. rewrite run_bind.
    rewrite (end_episode_update_step self trace k s r history K S R L).
    match goal with
    | |- context [episodes run np_mean n (?s1, ?t1)] =>
        destruct (IH s1 t1 (rollout_returns run (Z.to_nat r) s k).2 s r
                    (history ++ [np_mean (rollout_returns run (Z.to_nat r) s k).1])
                    eq_refl S R eq_refl)
          as (D & (means & Lm & Rm) & Tr & S' & R' & G')
    end.
    repeat split; try assumption.
    + exists (np_mean (rollout_returns run (Z.to_nat r) s k).1 :: means).
      split; [cbn; now rewrite Lm |].
      rewrite Rm, <- app_assoc. reflexivity.
    + rewrite Tr, !runs_app, runs_replicate. cbn [runs omap].
      rewrite app_nil_r, <- app_assoc, <- replicate_add. reflexivity.
Qed.
End EpisodeFacts.

(** X8. With a count of rollouts that is zero or negative the task is not
    run at all, yet a value is still appended to the history: the mean of
    no returns. *)
Theorem no_rollouts_still_append_a_value
  {RLTask : Type} (run : Z -> RLTask -> pyfloat * RLTask)
  (np_mean : list pyfloat -> pyfloat)
  (self : AverageReturnMetric.t RLTask) (trace : list event)
  (k : RLTask) (s r : Z) (history : list pyfloat) :
  AverageReturnMetric._task self = Some k ->
  AverageReturnMetric._num_steps self = Some s ->
  AverageReturnMetric._num_rollouts self = Some r ->
  AverageReturnMetric.returns self = Some history ->
  r <= 0 ->
  let done :=
    AverageReturnMetric._end_episode_update run np_mean (self, trace) in
  done
  = ((AverageReturnMetric.set_returns (history ++ [np_mean []]) self,
      trace ++ [Printed (np_mean [])]),
     Returned tt) /\
  done.2 = Returned tt /\
  AverageReturnMetric.returns done.1.1 = Some (history ++ [np_mean []]) /\
  AverageReturnMetric._task done.1.1 = Some k /\
  done.1.2 = trace ++ [Printed (np_mean [])] /\
  AverageReturnMetric.runs done.1.2 = AverageReturnMetric.runs trace.
Proof.
  intros K S R L Hr done.
  assert (E : done
              = ((AverageReturnMetric.set_returns (history ++ [np_mean []])
                    self,
                  trace ++ [Printed (np_mean [])]),
                 Returned tt)).
  { subst done.
    rewrite (end_episode_update_step run np_mean self trace k s r history
               K S R L).
    replace (Z.to_nat r) with 0%nat by lia. cbn.
    rewrite (set_task_same self k K). reflexivity. }
  split; [exact E |]. rewrite E. cbn [fst snd].
  repeat split; try reflexivity.
  - cbn. exact K.
  - rewrite runs_app. cbn. now rewrite app_nil_r.
Qed.

Lemma no_rollouts_still_append_a_value_witness :
  let idle := AverageReturnMetric.set_num_rollouts (-2) Demo.metric in
  let done :=
    AverageReturnMetric._end_episode_update Demo.counting_run
      Demo.exact_mean (idle, []) in
  AverageReturnMetric.returns done.1.1 = Some [NaN] /\
  AverageReturnMetric._task done.1.1 = Some 0 /\
  done.1.2 = [Printed NaN].
Proof.
  intros idle.
  assert (Hr : -2 <= 0) by discriminate.
  destruct (no_rollouts_still_append_a_value Demo.counting_run
              Demo.exact_mean idle [] 0 10 (-2) []
              eq_refl eq_refl eq_refl eq_refl Hr)
    as (_ & _ & Hret & Htask & Htrace & _).
  cbv zeta. split; [exact Hret | split; [exact Htask | exact Htrace]].
Defined.

(** X9. Calls of [_end_episode_update()] add up: after [n] of them the
    history is the old history followed by exactly [n] new values, the task
    has been run [n] times [num_rollouts] times, always with [num_steps],
    and the counts and the discount factor are as before. *)
Theorem episode_updates_accumulate
  {RLTask : Type} (run : Z -> RLTask -> pyfloat * RLTask)
  (np_mean : list pyfloat -> pyfloat) (n : nat)
  (self : AverageReturnMetric.t RLTask) (trace : list event)
  (k : RLTask) (s r : Z) (history : list pyfloat) :
  AverageReturnMetric._task self = Some k ->
  AverageReturnMetric._num_steps self = Some s ->
  AverageReturnMetric._num_rollouts self = Some r ->
  AverageReturnMetric.returns self = Some history ->
  let done := AverageReturnMetric.episodes run np_mean n (self, trace) in
  done.2 = Returned tt /\
  (exists means, length means = n /\
                 AverageReturnMetric._get_data done.1.1
                 = (done.1.1, Returned (history ++ means))) /\
  AverageReturnMetric.runs done.1.2
  = AverageReturnMetric.runs trace ++ replicate (n * Z.to_nat r) s /\
  AverageReturnMetric._num_steps done.1.1 = Some s /\
  AverageReturnMetric._num_rollouts done.1.1 = Some r /\
  AverageReturnMetric._gamma done.1.1 = AverageReturnMetric._gamma self.
Proof.
  intros K S R L done.
  destruct (episodes_spec run np_mean n self trace k s r history K S R L)
    as (D & (means & Lm & Rm) & Tr & S' & R' & G').
  subst done. repeat split; try assumption.
  exists means. split; [exact Lm |].
  unfold AverageReturnMetric._get_data. apply run_attr_set. exact Rm.
Qed.

Lemma episode_updates_accumulate_witness :
  let done :=
    AverageReturnMetric.episodes Demo.counting_run Demo.exact_mean 2
      (Demo.metric, []) in
  AverageReturnMetric.runs done.1.2 = [10; 10; 10; 10; 10; 10].
Proof.
  destruct (episode_updates_accumulate Demo.counting_run Demo.exact_mean 2
              Demo.metric [] 0 10 3 [] eq_refl eq_refl eq_refl eq_refl)
    as (_ & _ & T & _).
  exact T.
Defined.

(** ** The loss metric: the granularity and the nested history *)

(** X10. Whatever is given, the stored granularity is one of ['episode'],
    ['epoch'] and ['iteration'], so one of the three branches of [_plot]
    applies; and giving the stored value back to the setter stores it
    again unchanged. *)
Theorem wrt_is_one_of_three
  {BatchLoss : Type} (self : LossMetric.t BatchLoss) (w : option string) :
  exists stored,
    LossMetric.wrt (LossMetric.wrt_set w self).1
      = ((LossMetric.wrt_set w self).1, Returned stored) /\
    (stored = "episode" \/ stored = "epoch" \/ stored = "iteration") /\
    LossMetric.wrt_set (Some stored) (LossMetric.wrt_set w self).1
      = LossMetric.wrt_set w self.
Proof.
  destruct w as [s|].
  - rewrite wrt_set_string.
    destruct (String.prefix "episode" (lower s));
      [| destruct (String.prefix "epoch" (lower s))];
      eexists; (split; [reflexivity |]); (split; [| reflexivity]); auto.
  - exists "iteration". split; [reflexivity |]. split; [auto | reflexivity].
Qed.

Section LossHistoryFacts.
Import LossMetric.
Context {BatchLoss : Type}.
Variable item : BatchLoss -> pyfloat.

Lemma after_ticks_app (k1 k2 : list (tick (BatchLoss:=BatchLoss)))
  (self : t BatchLoss) :
  after_ticks item (k1 ++ k2) self
  = after_ticks item k2 (after_ticks item k1 self).
Proof. unfold after_ticks. apply fold_left_app. Qed.

Lemma on_tick_returns (k : tick (BatchLoss:=BatchLoss)) (self : t BatchLoss) :
  (on_tick item k self).2 = Returned tt.
Proof. destruct k; reflexivity. Qed.

Lemma on_tick_batch (l : BatchLoss) (self : t BatchLoss) :
  on_tick item (Batch l) self
  = (set_batch_losses (batch_losses self ++ [item l]) (set_loss l self),
     Returned tt).
Proof. reflexivity. Qed.

Lemma on_tick_epoch (self : t BatchLoss) :
  on_tick item Epoch self
  = (set_batch_losses []
       (set_epoch_losses (epoch_losses self ++ [batch_losses self]) self),
     Returned tt).
Proof. reflexivity. Qed.

Lemma on_tick_episode (self : t BatchLoss) :
  on_tick item Episode self
  = (set_epoch_losses []
       (set_losses (losses self ++ [epoch_losses self]) self),
     Returned tt).
Proof. reflexivity. Qed.

Lemma on_tick_recorded (k : tick (BatchLoss:=BatchLoss)) (self : t BatchLoss) :
  recorded (on_tick item k self).1 = recorded self ++ brought item [k] /\
  _wrt (on_tick item k self).1 = _wrt self.
Proof.
  destruct k as [l | |];
    rewrite ?on_tick_batch, ?on_tick_epoch, ?on_tick_episode;
    unfold recorded; cbn.
  all: split; [| reflexivity].
  all: rewrite ?concat_app; cbn; rewrite ?app_nil_r, <- ?app_assoc.
  all: reflexivity.
Qed.

Lemma after_ticks_recorded (ks : list (tick (BatchLoss:=BatchLoss))) :
  forall self : t BatchLoss,
    recorded (after_ticks item ks self) = recorded self ++ brought item ks /\
    _wrt (after_ticks item ks self) = _wrt self.
Proof.
  induction ks as [|k ks IH]; intros self.
  - cbn. split; [now rewrite app_nil_r | reflexivity].
  - change (after_ticks item (k :: ks) self)
      with (after_ticks item ks (on_tick item k self).1).
    destruct (IH (on_tick item k self).1) as [R W].
    destruct (on_tick_recorded k self) as [R1 W1].
    rewrite R, W, R1, W1. split; [| reflexivity].
    rewrite <- app_assoc. f_equal.
    change (k :: ks) with ([k] ++ ks). unfold brought. now rewrite omap_app.
Qed.

(** The batches of one epoch, then the rest of a closed training run. *)
Lemma batches_fill (bs : list BatchLoss) :
  forall self : t BatchLoss,
    let s' := after_ticks item (Batch <$> bs) self in
    batch_losses s' = batch_losses self ++ (item <$> bs) /\
    epoch_losses s' = epoch_losses self /\
    losses s' = losses self.
Proof.
  induction bs as [|b bs IH]; intros self s'; subst s'.
  - cbn. now rewrite app_nil_r.
  - change (after_ticks item (Batch <$> b :: bs) self)
      with (after_ticks item (Batch <$> bs) (on_tick item (Batch b) self).1).
    destruct (IH (on_tick item (Batch b) self).1) as (B & E & L).
    rewrite B, E, L, on_tick_batch. cbn. now rewrite <- app_assoc.
Qed.

Lemma epoch_fills (bs : list BatchLoss) (self : t BatchLoss) :
  batch_losses self = [] ->
  let s' := after_ticks item (epoch_ticks bs) self in
  batch_losses s' = [] /\
  epoch_losses s' = epoch_losses self ++ [item <$> bs] /\
  losses s' = losses self.
Proof.
  intros B0 s'. subst s'. unfold epoch_ticks. rewrite after_ticks_app.
  destruct (batches_fill bs self) as (B & E & L).
  change (after_ticks item [Epoch] ?s) with (on_tick item Epoch s).1.
  rewrite on_tick_epoch. cbn. rewrite B, E, L, B0. repeat split; reflexivity.
Qed.

Lemma epochs_fill (eps : list (list BatchLoss)) :
  forall self : t BatchLoss,
    batch_losses self = [] ->
    let s' := after_ticks item (concat (epoch_ticks <$> eps)) self in
    batch_losses s' = [] /\
    epoch_losses s' = epoch_losses self ++ (fmap (M:=list) item <$> eps) /\
    losses s' = losses self.
Proof.
  induction eps as [|bs eps IH]; intros self B0 s'; subst s'.
  - cbn. now rewrite app_nil_r.
  - cbn [fmap list_fmap concat]. rewrite after_ticks_app.
    destruct (epoch_fills bs self B0) as (B & E & L).
    destruct (IH _ B) as (B' & E' & L').
    rewrite B', E', L', E, L. repeat split; try reflexivity.
    now rewrite <- app_assoc.
Qed.

Lemma episode_fills (eps : list (list BatchLoss)) (self : t BatchLoss) :
  batch_losses self = [] ->
  epoch_losses self = [] ->
  let s' := after_ticks item (episode_ticks eps) self in
  batch_losses s' = [] /\
  epoch_losses s' = [] /\
  losses s' = losses self ++ [fmap (M:=list) item <$> eps].
Proof.
  intros B0 E0 s'. subst s'. unfold episode_ticks. rewrite after_ticks_app.
  destruct (epochs_fill eps self B0) as (B & E & L).
  change (after_ticks item [Episode] ?s) with (on_tick item Episode s).1.
  rewrite on_tick_episode. cbn. rewrite B, E, L, E0.
  repeat split; reflexivity.
Qed.

Lemma training_fills (run : list (list (list BatchLoss))) :
  forall self : t BatchLoss,
    batch_losses self = [] ->
    epoch_losses self = [] ->
    let s' := after_ticks item (training_ticks run) self in
    batch_losses s' = [] /\
    epoch_losses s' = [] /\
    losses s' = losses self ++ (fmap (M:=list) (fmap (M:=list) item) <$> run).
Proof.
  induction run as [|eps run IH]; intros self B0 E0 s'; subst s'.
  - cbn. now rewrite app_nil_r.
  - unfold training_ticks. cbn [fmap list_fmap concat].
    rewrite after_ticks_app.
    destruct (episode_fills eps self B0 E0) as (B & E & L).
    destruct (IH _ B E) as (B' & E' & L').
    fold (training_ticks run). rewrite B', E', L', L.
    repeat split; try reflexivity. now rewrite <- app_assoc.
Qed.
End LossHistoryFacts.

(** X11. Nothing the training loop reports is lost, repeated or reordered:
    after any series of batch, epoch and episode ends, the values the
    metric holds, oldest first, are those it held before followed by the
    loss values of the batches, in order. Ending an epoch or an episode
    only regroups them, no call raises, and the granularity is not
    touched. *)
Theorem loss_values_are_conserved
  {BatchLoss : Type} (item : BatchLoss -> pyfloat)
  (ticks : list (LossMetric.tick (BatchLoss:=BatchLoss)))
  (self : LossMetric.t BatchLoss) :
  LossMetric.recorded (LossMetric.after_ticks item ticks self)
  = LossMetric.recorded self ++ LossMetric.brought item ticks /\
  LossMetric._wrt (LossMetric.after_ticks item ticks self)
  = LossMetric._wrt self /\
  (forall k s, (LossMetric.on_tick item k s).2 = Returned tt).
Proof.
  destruct (after_ticks_recorded item ticks self) as [R W].
  repeat split; [exact R | exact W |]. intros k s. apply on_tick_returns.
Qed.

(** X12. A training run in which every epoch and every episode is closed,
    started with no batch or epoch pending, adds to [losses] one entry per
    episode, holding one list per epoch, holding one value per batch, in
    order, and leaves nothing pending; [_get_data] returns that nested
    list. *)
Theorem closed_training_fills_losses
  {BatchLoss : Type} (item : BatchLoss -> pyfloat)
  (run : list (list (list BatchLoss))) (self : LossMetric.t BatchLoss) :
  LossMetric.batch_losses self = [] ->
  LossMetric.epoch_losses self = [] ->
  let done := LossMetric.after_ticks item (LossMetric.training_ticks run) self in
  LossMetric.batch_losses done = [] /\
  LossMetric.epoch_losses done = [] /\
  LossMetric._get_data done
  = (done, Returned (LossMetric.losses self ++ (fmap (M:=list) (fmap (M:=list) item) <$> run))).
Proof.
  intros B0 E0 done. subst done.
  destruct (training_fills item run self B0 E0) as (B & E & L).
  repeat split; [exact B | exact E |].
  unfold LossMetric._get_data. now rewrite L.
Qed.

Lemma closed_training_fills_losses_witness :
  LossMetric.losses
    (LossMetric.after_ticks Demo.fl
       (LossMetric.training_ticks [[[1; 2]; [3; 4]]; [[5; 6]; [7; 8]]])
       LossMetric.new)
  = [[[Demo.fl 1; Demo.fl 2]; [Demo.fl 3; Demo.fl 4]];
     [[Demo.fl 5; Demo.fl 6]; [Demo.fl 7; Demo.fl 8]]].
Proof.
  pose proof (closed_training_fills_losses Demo.fl
                [[[1; 2]; [3; 4]]; [[5; 6]; [7; 8]]] LossMetric.new
                eq_refl eq_refl) as P.
  cbv zeta in P. destruct P as (_ & _ & G).
  assert (Inj : forall (T : Type) (a b : T), Returned a = Returned b -> a = b)
    by (intros T a b E; injection E as E; exact E).
  exact (Inj _ _ _ (f_equal snd G)).
Defined.

(** ** The [keyboard_interrupt] decorator *)

Lemma sys_is_bound (code : Z) : decorator.sys_exit code = decorator.SystemExit code.
Proof. vm_compute. reflexivity. Qed.

(** X13. A method decorated with [keyboard_interrupt] never lets a
    [KeyboardInterrupt] out: when the method raises one, the call ends in
    [SystemExit] with code 0 instead ([sys] is bound in the module, unlike
    [np]), with [self] in the state the method left it. *)
Theorem keyboard_interrupt_becomes_exit
  {S A : Type} (func : S -> S * decorator.outcome A) (s : S) :
  (decorator.keyboard_interrupt func s).2
    <> decorator.Interrupted decorator.KeyboardInterrupt /\
  ((func s).2 = decorator.Interrupted decorator.KeyboardInterrupt ->
   decorator.keyboard_interrupt func s
   = ((func s).1, decorator.Interrupted (decorator.SystemExit 0))).
Proof.
  unfold decorator.keyboard_interrupt, decorator.wrap.
  destruct (func s) as [s' [a | [| code | e]]]; cbn [fst snd];
    rewrite ?sys_is_bound; split; try discriminate; try reflexivity.
Qed.

Lemma keyboard_interrupt_becomes_exit_witness :
  decorator.keyboard_interrupt (A:=unit)
    (fun n : nat => (Datatypes.S n, decorator.Interrupted decorator.KeyboardInterrupt))
    4%nat
  = (5%nat, decorator.Interrupted (decorator.SystemExit 0)).
Proof.
  apply (keyboard_interrupt_becomes_exit (A:=unit)
           (fun n : nat =>
              (Datatypes.S n, decorator.Interrupted decorator.KeyboardInterrupt))
           4%nat).
  reflexivity.
Defined.

(** X14. In every other case the decorator is transparent: a value the
    method returns, a [SystemExit] or any other exception it raises comes
    out as it is, with the same state of [self]. *)
Theorem keyboard_interrupt_is_transparent
  {S A : Type} (func : S -> S * decorator.outcome A) (s : S) :
  (func s).2 <> decorator.Interrupted decorator.KeyboardInterrupt ->
  decorator.keyboard_interrupt func s = func s.
Proof.
  unfold decorator.keyboard_interrupt, decorator.wrap.
  destruct (func s) as [s' [a | [| code | e]]]; cbn [snd]; intros N;
    try reflexivity.
  contradiction.
Qed.

Lemma keyboard_interrupt_is_transparent_witness :
  decorator.keyboard_interrupt
    (fun n : nat => (Datatypes.S n, decorator.Completed n)) 4%nat
  = (5%nat, decorator.Completed 4%nat).
Proof.
  apply (keyboard_interrupt_is_transparent
           (fun n : nat => (Datatypes.S n, decorator.Completed n)) 4%nat).
  discriminate.
Defined.
